(** * ElasticSearch: a shallow embedding of [ElasticSearch/__init__.py]

    The module is a thin adapter over the Elasticsearch client library.
    The embedding keeps the shape of the Python source:

    - Python values are a JSON-like tree, dictionaries are [gmap string];
    - the caller's document (the [body] of [put]/[store]) lives in a store
      of dictionary objects addressed by reference, because [put] assigns
      into the object it is handed;
    - every method is a computation in a state-and-exception monad over a
      [world]: the object store, the [__es] attribute, the trace of
      requests handed to the client library, the log and the clock;
    - the client library, the TLS context loader and the wall clock are
      not part of the module: they are taken as a [backend], an arbitrary
      oracle that answers every request with a value or an exception;
    - [float] is IEEE 754 binary64, computed with the specification
      floats of the standard library. *)

From Stdlib Require Import ZArith SpecFloat Ascii.
From stdpp Require Import base option list strings gmap.

Set Warnings "-register-all".

Local Open Scope string_scope.
Local Open Scope list_scope.
Local Open Scope Z_scope.

(** ** Python values *)

Inductive pyval :=
| PyNone
| PyBool (b : bool)
| PyInt (z : Z)
| PyStr (s : string)
| PyList (l : list pyval)
| PyDict (d : gmap string pyval).

(** A dictionary object, as held by a variable of type [dict]. *)
Abbreviation pydict := (gmap string pyval).

(** Exceptions; all of them are subclasses of Python's [Exception], so an
    [except Exception] clause catches each one. [TransportError] stands
    for the client library's connection errors and timeouts, [ApiError]
    for an HTTP error status answered by the engine. *)
Inductive exn :=
| AttributeError (msg : string)
| KeyError (key : string)
| TypeError (msg : string)
| ValueError (msg : string)
| OverflowError (msg : string)
| OSError (msg : string)
| TransportError (msg : string)
| ApiError (status : Z) (msg : string).

Inductive result (A : Type) :=
| Return (a : A)
| Raise (e : exn).
Arguments Return {A} a.
Arguments Raise {A} e.

(** [bool(v)]: Python truthiness. *)
Definition truthy (v : pyval) : bool :=
  match v with
  | PyNone => false
  | PyBool b => b
  | PyInt z => negb (z =? 0)
  | PyStr s => negb (String.eqb s "")
  | PyList l => match l with [] => false | _ => true end
  | PyDict d => negb (bool_decide (d = ∅))
  end.

(** [v[key]] for a string key. *)
Definition subscript (v : pyval) (key : string) : result pyval :=
  match v with
  | PyDict d =>
      match d !! key with
      | Some x => Return x
      | None => Raise (KeyError key)
      end
  | _ => Raise (TypeError "object is not subscriptable")
  end.

(** ** binary64 floating point *)

Module Float.

Definition float := spec_float.
Definition prec : Z := 53.
Definition emax : Z := 1024.

(** [float(z)] for an integer. *)
Definition of_Z (z : Z) : float := binary_normalize prec emax z 0 false.

Definition mul : float -> float -> float := SFmul prec emax.
Definition add : float -> float -> float := SFadd prec emax.
Definition div : float -> float -> float := SFdiv prec emax.

(** The integer [z] as an unrounded binary number. *)
Definition exact (z : Z) : float :=
  match z with
  | Z0 => S754_zero false
  | Zpos p => S754_finite false p 0
  | Zneg p => S754_finite true p 0
  end.

(** [a / b] on Python integers: the quotient rounded once. *)
Definition true_div (a b : Z) : float := div (exact a) (exact b).

(** [int(x)]: truncation toward zero; NaN and the infinities raise. *)
Definition to_int (x : float) : result Z :=
  match x with
  | S754_zero _ => Return 0
  | S754_finite s m e =>
      let a := if 0 <=? e then Z.shiftl (Zpos m) e
               else Z.shiftr (Zpos m) (- e) in
      Return (if s then - a else a)
  | S754_infinity _ =>
      Raise (OverflowError "cannot convert float infinity to integer")
  | S754_nan => Raise (ValueError "cannot convert float NaN to integer")
  end.

(** C's [modf]: the fractional and the integral part, both exact, as the
    pair (fractional part, integral part as an integer). *)
Definition modf (x : float) : option (float * Z) :=
  match x with
  | S754_zero s => Some (S754_zero s, 0)
  | S754_finite s m e =>
      if 0 <=? e then Some (S754_zero s, (if s then - 1 else 1) * Z.shiftl (Zpos m) e)
      else
        let i := Z.shiftr (Zpos m) (- e) in
        let f := Z.land (Zpos m) (Z.ones (- e)) in
        Some (binary_normalize prec emax (if s then - f else f) e s,
              if s then - i else i)
  | _ => None
  end.

(** Rounding to the nearest integer, ties to even. *)
Definition round_half_even (x : float) : option Z :=
  match x with
  | S754_zero _ => Some 0
  | S754_finite s m e =>
      if 0 <=? e then Some ((if s then - 1 else 1) * Z.shiftl (Zpos m) e)
      else
        let q := Z.shiftr (Zpos m) (- e) in
        let r := Z.land (Zpos m) (Z.ones (- e)) in
        let half := Z.shiftl 1 (- e - 1) in
        let a := match r ?= half with
                 | Lt => q
                 | Gt => q + 1
                 | Eq => if Z.even q then q else q + 1
                 end in
        Some (if s then - a else a)
  | _ => None
  end.

End Float.

(** ** [datetime] *)

(** A [datetime] is kept as the instant it denotes, split as the library
    splits it: whole POSIX seconds and the microsecond field, with the
    attached time zone ([None] for a naive value, which [timestamp] reads
    in local time). *)
Record datetime := {
  dt_seconds : Z;
  dt_microsecond : Z;
  dt_tzinfo : option string }.

Definition utc : string := "UTC".

Module DateTime.

(** [d.timestamp()]. An aware value is [(d - epoch).total_seconds()],
    the microsecond count divided by [10**6]; a naive value is
    [seconds + microsecond / 1e6]. *)
Definition timestamp (d : datetime) : Float.float :=
  match dt_tzinfo d with
  | Some _ =>
      Float.true_div (dt_seconds d * 10 ^ 6 + dt_microsecond d) (10 ^ 6)
  | None =>
      Float.add (Float.of_Z (dt_seconds d))
                (Float.div (Float.of_Z (dt_microsecond d)) (Float.of_Z (10 ^ 6)))
  end.

Definition min_seconds : Z := -62135596800.
Definition max_seconds : Z := 253402300799.

(** [datetime.fromtimestamp(t, tz)] with a time zone: the fraction is
    rounded to microseconds, ties to even, and carried into the seconds. *)
Definition fromtimestamp (t : Float.float) (tz : string) : result datetime :=
  match Float.modf t with
  | None => Raise (ValueError "Invalid value NaN (not a number)")
  | Some (frac, intpart) =>
      match Float.round_half_even (Float.mul frac (Float.of_Z (10 ^ 6))) with
      | None => Raise (ValueError "Invalid value NaN (not a number)")
      | Some us =>
          let '(sec, us) :=
            if 10 ^ 6 <=? us then (intpart + 1, us - 10 ^ 6)
            else if us <? 0 then (intpart - 1, us + 10 ^ 6)
            else (intpart, us) in
          if (min_seconds <=? sec) && (sec <=? max_seconds) then
            Return {| dt_seconds := sec; dt_microsecond := us;
                      dt_tzinfo := Some tz |}
          else Raise (ValueError "year is out of range")
      end
  end.

(** Two values denote the same instant. *)
Definition same_instant (a b : datetime) : Prop :=
  dt_seconds a = dt_seconds b /\ dt_microsecond a = dt_microsecond b.

(** [d] cut down to whole milliseconds. *)
Definition truncate_ms (d : datetime) : datetime :=
  {| dt_seconds := dt_seconds d;
     dt_microsecond := dt_microsecond d / 1000 * 1000;
     dt_tzinfo := dt_tzinfo d |}.

End DateTime.

(** ** The module's helpers *)

Definition to_es_timestamp (datetime_obj : datetime) : result Z :=
  Float.to_int (Float.mul (DateTime.timestamp datetime_obj) (Float.of_Z 1000)).

Definition from_es_timestamp (timestamp : Z) (tz : string) : result datetime :=
  DateTime.fromtimestamp (Float.true_div timestamp 1000) tz.

(** ** The outside world *)

(** The calls the class makes on the client library, with their keyword
    arguments. [indices().exists/create/delete] are the [ReqIndices*]. *)
Inductive request :=
| ReqInfo
| ReqPing
| ReqIndicesExists (index : string)
| ReqIndicesCreate (index : string) (settings mappings : pyval)
| ReqIndicesDelete (index : string)
| ReqDeleteByQuery (index : string) (query : pyval)
| ReqSearch (index : string) (body : pyval) (size : Z)
| ReqIndex (index : string) (body : pyval).

Inductive ssl_protocol := PROTOCOL_TLS_CLIENT.
Inductive ssl_verify_mode := CERT_NONE | CERT_OPTIONAL | CERT_REQUIRED.

Record ssl_context := {
  ctx_protocol : ssl_protocol;
  ctx_cafile : option string;
  ctx_verify_mode : ssl_verify_mode }.

(** What the module runs against. [load_verify_locations] is the outcome
    of loading trust anchors from a path of the local file system,
    [connect] builds the client object, [perform] answers one request in
    a state of the client and the engine behind it. *)
Record backend := {
  cstate : Type;
  load_verify_locations : string -> result unit;
  connect : list string -> string * string -> ssl_context -> result cstate;
  perform : request -> cstate -> result pyval * cstate }.

(** Log records: the logger method called and the pieces of the f-string. *)
Inductive log_level := INFO | ERROR | EXCEPTION.

Inductive fragment :=
| Lit (s : string)
| Val (v : pyval)
| Exc (e : exn).

Record log_record := {
  lr_level : log_level;
  lr_message : list fragment }.

(** References to dictionary objects. *)
Definition ref := nat.

(** The value of the object a reference stands for, given the dictionary
    objects [h]: the dictionary's present content, or [None]. *)
Definition object_at (h : gmap ref pydict) (body : ref) : pyval :=
  match h !! body with
  | Some d => PyDict d
  | None => PyNone
  end.

Record world (B : backend) := {
  heap : gmap ref pydict;
  es : option (cstate B);
  calls : list request;
  logs : list log_record;
  clock : nat -> datetime;
  ticks : nat }.
Arguments heap {B} w.
Arguments es {B} w.
Arguments calls {B} w.
Arguments logs {B} w.
Arguments clock {B} w.
Arguments ticks {B} w.

(** ** The monad of methods: state and exceptions *)

Definition M (B : backend) (A : Type) : Type := world B -> result A * world B.

Definition ret {B A} (a : A) : M B A := fun w => (Return a, w).

Definition raise {B A} (e : exn) : M B A := fun w => (Raise e, w).

Definition bind {B A C} (m : M B A) (k : A -> M B C) : M B C :=
  fun w =>
    match m w with
    | (Return a, w') => k a w'
    | (Raise e, w') => (Raise e, w')
    end.

(** [try: m  except Exception as ex: handler ex]. *)
Definition try_except {B A} (m : M B A) (handler : exn -> M B A) : M B A :=
  fun w =>
    match m w with
    | (Return a, w') => (Return a, w')
    | (Raise ex, w') => handler ex w'
    end.

(** A pure step that may raise. *)
Definition lift {B A} (r : result A) : M B A := fun w => (r, w).

Declare Scope py_scope.
Delimit Scope py_scope with py.
Notation "x ← m ; k" := (bind m (fun x => k)) (only parsing) : py_scope.
Notation "m ;; k" := (bind m (fun _ => k)) (only parsing) : py_scope.
Local Open Scope py_scope.

(** A [try] statement either leaves the function with a [return] inside
    it ([Some v]) or falls through to the statement after it ([None]). *)
Definition fall_through {B A} (r : option A) (after : A) : M B A :=
  match r with
  | Some v => ret v
  | None => ret after
  end.

Definition never_raises {B A} (m : M B A) (w : world B) : Prop :=
  exists v w', m w = (Return v, w').

(** ** class ElasticSearch *)

Definition ROOT_CA : string := "/etc/ssl/certs".

Section ElasticSearch.
Context {B : backend}.

(** *** Primitive steps *)

Definition set_heap (h : gmap ref pydict) (w : world B) : world B :=
  {| heap := h; es := es w; calls := calls w; logs := logs w;
     clock := clock w; ticks := ticks w |}.

Definition set_es (c : option (cstate B)) (w : world B) : world B :=
  {| heap := heap w; es := c; calls := calls w; logs := logs w;
     clock := clock w; ticks := ticks w |}.

Definition record_call (req : request) (c : cstate B) (w : world B) : world B :=
  {| heap := heap w; es := Some c; calls := calls w ++ [req]; logs := logs w;
     clock := clock w; ticks := ticks w |}.

Definition add_log (r : log_record) (w : world B) : world B :=
  {| heap := heap w; es := es w; calls := calls w; logs := logs w ++ [r];
     clock := clock w; ticks := ticks w |}.

Definition tick (w : world B) : world B :=
  {| heap := heap w; es := es w; calls := calls w; logs := logs w;
     clock := clock w; ticks := S (ticks w) |}.

(** The reading [datetime.now()] returns in [w]. *)
Definition now (w : world B) : datetime := clock w (ticks w).

(** [datetime.now()]: a naive value, read off the clock. *)
Definition datetime_now : M B datetime := fun w => (Return (now w), tick w).

Definition no_client : exn :=
  AttributeError "'ElasticSearch' object has no attribute '_ElasticSearch__es'".

(** A method call on the client object: the request is handed to the
    library, which answers or raises. Reading [self.__es] raises when
    the constructor never assigned it. *)
Definition call (req : request) : M B pyval :=
  fun w =>
    match es w with
    | None => (Raise no_client, w)
    | Some c => let '(r, c') := perform B req c in (r, record_call req c' w)
    end.

(** The object behind [body], as a callee receives it: the dictionary as
    it stands. The store holds the dictionary objects; a reference outside
    it stands for an argument that is not a dictionary, of which the
    model has one, [None]. Passing an object on inspects nothing and
    cannot fail. *)
Definition deref (body : ref) : M B pyval :=
  fun w => (Return (object_at (heap w) body), w).

(** [body[key] = v]: assignment into the object itself. *)
Definition setitem (body : ref) (key : string) (v : pyval) : M B unit :=
  fun w =>
    match heap w !! body with
    | Some d => (Return (), set_heap (<[body := <[key := v]> d]> (heap w)) w)
    | None => (Raise (TypeError "object does not support item assignment"), w)
    end.

(** [ssl.SSLContext(protocol)] and [context.load_verify_locations(path)]. *)
Definition SSLContext (protocol : ssl_protocol) : ssl_context :=
  {| ctx_protocol := protocol; ctx_cafile := None;
     ctx_verify_mode := CERT_REQUIRED |}.

Definition context_load_verify_locations (context : ssl_context) (path : string)
  : M B ssl_context :=
  lift (load_verify_locations B path);;
  ret {| ctx_protocol := ctx_protocol context; ctx_cafile := Some path;
          ctx_verify_mode := ctx_verify_mode context |}.

Definition set_verify_mode (context : ssl_context) (m : ssl_verify_mode)
  : ssl_context :=
  {| ctx_protocol := ctx_protocol context; ctx_cafile := ctx_cafile context;
     ctx_verify_mode := m |}.

(** [self.__es = Elasticsearch(hosts=..., http_auth=..., ssl_context=...)]. *)
Definition Elasticsearch (hosts : list string) (http_auth : string * string)
  (context : ssl_context) : M B unit :=
  fun w =>
    match connect B hosts http_auth context with
    | Return c => (Return (), set_es (Some c) w)
    | Raise e => (Raise e, w)
    end.

(** *** Methods *)

Definition log_info (msg : list fragment) : M B unit :=
  fun w => (Return (), add_log {| lr_level := INFO; lr_message := msg |} w).

Definition log_error (msg : list fragment) : M B unit :=
  fun w => (Return (), add_log {| lr_level := ERROR; lr_message := msg |} w).

Definition log_exception (msg : list fragment) : M B unit :=
  fun w => (Return (), add_log {| lr_level := EXCEPTION; lr_message := msg |} w).

(** [self.client()]: reads the [__es] attribute. *)
Definition client : M B unit :=
  fun w =>
    match es w with
    | None => (Raise no_client, w)
    | Some _ => (Return (), w)
    end.

Definition indices : M B unit := client.

Definition ping : M B bool :=
  client;;
  r ← call ReqPing;
  ret (truthy r).

Definition check_index (name : string) : M B bool :=
  indices;;
  r ← call (ReqIndicesExists name);
  ret (truthy r).

Definition create_index (name : string) (settings mappings : pyval) : M B bool :=
  found ← check_index name;
  if found then ret false
  else
    r ← try_except
          (indices;;
           call (ReqIndicesCreate name settings mappings);;
           ret (Some true))
          (fun ex =>
             log_exception [Lit "Got an error while creating the '"; Lit name;
                            Lit "' Elasticsearch index."];;
             log_exception [Lit "  Message: "; Exc ex];;
             ret None);
    fall_through r false.

Definition match_all_query : pyval := PyDict {[ "match_all" := PyDict ∅ ]}.

Definition empty_index (name : string) : M B bool :=
  r ← try_except
        (client;;
         call (ReqDeleteByQuery name match_all_query);;
         log_info [Lit "Successfully emptied the '"; Lit name;
                   Lit "' Elasticsearch index."];;
         ret None)
        (fun ex =>
           log_exception [Lit "Got an exception while emptying '"; Lit name;
                          Lit "' Elasticsearch index: "; Exc ex];;
           ret (Some false));
  fall_through r true.

Definition delete_index (name : string) : M B bool :=
  indices;;
  found ← call (ReqIndicesExists name);
  if negb (truthy found) then ret false
  else
    r ← try_except
          (indices;;
           response ← call (ReqIndicesDelete name);
           acknowledged ← lift (subscript response "acknowledged");
           if truthy acknowledged then
             log_info [Lit "The '"; Lit name;
                       Lit "' Elasticsearch index was successfully deleted."];;
             ret None
           else
             log_error [Lit "Got an error while deleting the '"; Lit name;
                        Lit "' Elasticsearch index!"];;
             ret (Some false))
          (fun ex =>
             log_exception [Lit "Got an exception while trying to delete '";
                            Lit name; Lit "' Elasticsearch index: "; Exc ex];;
             ret (Some false));
    fall_through r true.

(** The keyword defaults of [query]. *)
Definition query_default_raw : bool := false.
Definition query_default_size : Z := 10000.

Definition query (index : string) (query : pyval)
  (raw : option bool) (size : option Z) : M B pyval :=
  let raw := default query_default_raw raw in
  let size := default query_default_size size in
  r ← try_except
        (let body := PyDict {[ "query" := query ]} in
         if raw then
           client;;
           response ← call (ReqSearch index body size);
           ret (Some response)
         else
           client;;
           response ← call (ReqSearch index body size);
           hits ← lift (subscript response "hits");
           hits ← lift (subscript hits "hits");
           ret (Some hits))
        (fun ex =>
           log_exception [Lit "Got an exception while trying to search '";
                          Lit index; Lit "' Elasticsearch index: "; Exc ex];;
           ret None);
  fall_through r PyNone.

Definition store (index : string) (body : ref) : M B bool :=
  r ← try_except
        (client;;
         document ← deref body;
         call (ReqIndex index document);;
         ret None)
        (fun ex =>
           log_exception [Lit "Got an exception while trying to store data in '";
                          Lit index; Lit "' Elasticsearch index: "; Exc ex];;
           ret (Some false));
  fall_through r true.

Definition setup_settings : pyval :=
  PyDict {[ "number_of_shards" := PyInt 2; "number_of_replicas" := PyInt 2 ]}.

Definition setup_mappings : pyval :=
  PyDict {[ "properties" :=
    PyDict {[ "id" := PyDict {[ "type" := PyStr "long" ]};
              "timestamp" :=
                PyDict {[ "type" := PyStr "date";
                          "format" :=
                            PyStr "yyyy-MM-dd HH:mm:ss||yyyy-MM-dd||epoch_millis" ]} ]} ]}.

Definition setup : M B bool :=
  found ← check_index "data";
  if negb found then
    let settings := setup_settings in
    let mappings := setup_mappings in
    create_index "data" settings mappings
  else ret true.

(** [get(query=None)]; [PyNone] is the default. *)
Definition get (query_arg : pyval) : M B pyval :=
  let query_arg := match query_arg with PyNone => PyDict ∅ | q => q end in
  query "data" query_arg None None.

Definition put (body : ref) : M B bool :=
  t ← datetime_now;
  ms ← lift (to_es_timestamp t);
  setitem body "timestamp" (PyInt ms);;
  store "data" body.

(** The suite of the constructor's [try]. *)
Definition init_connect (url user secret : string) (context : ssl_context)
  : M B unit :=
  Elasticsearch [url] (user, secret) context;;
  info ← call ReqInfo;
  version ← lift (subscript info "version");
  number ← lift (subscript version "number");
  log_info [Lit "Successfully connected to Elasticsearch. Server version: ";
            Val number];;
  setup;;
  ret ().

Definition init_failed (url : string) (ex : exn) : log_record :=
  {| lr_level := EXCEPTION;
     lr_message := [Lit "Got an exception while connecting to Elasticsearch by URL ";
                    Lit url; Lit ": "; Exc ex] |}.

(** [__init__(self, url, user, secret)]. *)
Definition init (url user secret : string) : M B unit :=
  let context := SSLContext PROTOCOL_TLS_CLIENT in
  context ← context_load_verify_locations context ROOT_CA;
  let context := set_verify_mode context CERT_REQUIRED in
  try_except
    (init_connect url user secret context)
    (fun ex => log_exception (lr_message (init_failed url ex))).

End ElasticSearch.

(** *** The destructor *)

Section Destructor.
Context {B : backend}.

(** [client().close()], the one call on the client that is no request of
    a method: the client's answer and the state it is left in. *)
Variable close : cstate B -> result pyval * cstate B.

Definition client_close : M B pyval :=
  fun w =>
    match es w with
    | None => (Raise no_client, w)
    | Some c => let '(r, c') := close c in (r, set_es (Some c') w)
    end.

(** [del self.__es]. *)
Definition del_es : M B unit :=
  fun w =>
    match es w with
    | None => (Raise no_client, w)
    | Some _ => (Return (), set_es None w)
    end.

Definition no_logger : exn :=
  AttributeError "'ElasticSearch' object has no attribute '_ElasticSearch__logger'".

(** [del self.__logger]. The logger is an attribute of the class, assigned
    in the class body; no method ever sets it on the object, so the object
    has nothing of that name to delete. *)
Definition del_logger : M B unit := raise no_logger.

Definition __del__ : M B unit :=
  alive ← ping;
  (if alive then client;; client_close;; ret () else ret ());;
  del_es;;
  del_logger.

End Destructor.

(** ** Concrete backends

    Small stand-ins for the client library, used to run the methods on
    concrete inputs. They are test doubles, not a model of Elasticsearch. *)

Module Doubles.

Record index_state := {
  ix_settings : pyval;
  ix_mappings : pyval;
  ix_docs : list pyval }.

Definition acknowledged : pyval := PyDict {[ "acknowledged" := PyBool true ]}.

Definition hit (doc : pyval) : pyval := PyDict {[ "_source" := doc ]}.

Definition search_response (docs : list pyval) : pyval :=
  PyDict {[ "took" := PyInt 1;
            "hits" := PyDict {[ "hits" := PyList (hit <$> docs) ]} ]}.

Definition not_found (index : string) : exn :=
  ApiError 404 ("index_not_found_exception: " +:+ index).

(** An in-memory engine that ignores the query and matches everything. *)
Definition memory_perform (req : request) (st : gmap string index_state)
  : result pyval * gmap string index_state :=
  match req with
  | ReqInfo =>
      (Return (PyDict {[ "version" := PyDict {[ "number" := PyStr "8.2.0" ]} ]}), st)
  | ReqPing => (Return (PyBool true), st)
  | ReqIndicesExists index => (Return (PyBool (bool_decide (is_Some (st !! index)))), st)
  | ReqIndicesCreate index settings mappings =>
      match st !! index with
      | Some _ => (Raise (ApiError 400 "resource_already_exists_exception"), st)
      | None =>
          (Return acknowledged,
           <[index := {| ix_settings := settings; ix_mappings := mappings;
                         ix_docs := [] |}]> st)
      end
  | ReqIndicesDelete index =>
      match st !! index with
      | Some _ => (Return acknowledged, delete index st)
      | None => (Raise (not_found index), st)
      end
  | ReqDeleteByQuery index _ =>
      match st !! index with
      | Some ix =>
          (Return (PyDict {[ "deleted" := PyInt (Z.of_nat (length (ix_docs ix))) ]}),
           <[index := {| ix_settings := ix_settings ix;
                         ix_mappings := ix_mappings ix; ix_docs := [] |}]> st)
      | None => (Raise (not_found index), st)
      end
  | ReqSearch index _ size =>
      match st !! index with
      | Some ix => (Return (search_response (take (Z.to_nat size) (ix_docs ix))), st)
      | None => (Raise (not_found index), st)
      end
  | ReqIndex index body =>
      let ix := default {| ix_settings := PyDict ∅; ix_mappings := PyDict ∅;
                           ix_docs := [] |} (st !! index) in
      (Return (PyDict {[ "result" := PyStr "created" ]}),
       <[index := {| ix_settings := ix_settings ix; ix_mappings := ix_mappings ix;
                     ix_docs := ix_docs ix ++ [body] |}]> st)
  end.

Definition memory : backend := {|
  cstate := gmap string index_state;
  load_verify_locations := fun _ => Return ();
  connect := fun _ _ _ => Return ∅;
  perform := memory_perform |}.

(** The endpoint cannot be reached: every request fails in transport. *)
Definition unreachable : backend := {|
  cstate := unit;
  load_verify_locations := fun _ => Return ();
  connect := fun _ _ _ => Return ();
  perform := fun _ c => (Raise (TransportError "Connection refused"), c) |}.

(** The trust anchors cannot be loaded from [ROOT_CA]. *)
Definition missing_ca : backend := {|
  cstate := gmap string index_state;
  load_verify_locations := fun path => Raise (OSError ("No such file or directory: " +:+ path));
  connect := fun _ _ _ => Return ∅;
  perform := memory_perform |}.

(** The engine answers every deletion with [acknowledged: false]. *)
Definition reluctant : backend := {|
  cstate := unit;
  load_verify_locations := fun _ => Return ();
  connect := fun _ _ _ => Return ();
  perform := fun req c =>
    match req with
    | ReqIndicesExists _ => (Return (PyBool true), c)
    | ReqIndicesDelete _ => (Return (PyDict {[ "acknowledged" := PyBool false ]}), c)
    | _ => (Return PyNone, c)
    end |}.

(** A clock that stands still at 2022-05-13 00:00:00.25 UTC. *)
Definition epoch_clock : nat -> datetime :=
  fun _ => {| dt_seconds := 1652400000; dt_microsecond := 250000;
              dt_tzinfo := None |}.

(** A freshly allocated object, before [__init__] has run. *)
Definition fresh (B : backend) : world B := {|
  heap := ∅; es := None; calls := []; logs := [];
  clock := epoch_clock; ticks := 0 |}.

(** A connected object over the in-memory engine holding [st]. *)
Definition connected (st : gmap string index_state) : world memory :=
  Build_world memory ∅ (Some st) [] [] epoch_clock 0.

Definition offline : world unreachable :=
  Build_world unreachable ∅ (Some ()) [] [] epoch_clock 0.

Definition data_index : index_state :=
  {| ix_settings := setup_settings; ix_mappings := setup_mappings; ix_docs := [] |}.

End Doubles.


(** * Vocabulary of the statements *)

Import Doubles.

(** The world in which [put] hands the document to [store]. *)
Definition stamped {B : backend} (body : ref) (d : pydict) (ms : Z) (w : world B) : world B :=
  set_heap (<[body := <["timestamp" := PyInt ms]> d]> (heap w)) (tick w).

(** The TLS context the constructor hands to the client. *)
Definition init_context : ssl_context :=
  {| ctx_protocol := PROTOCOL_TLS_CLIENT; ctx_cafile := Some ROOT_CA;
     ctx_verify_mode := CERT_REQUIRED |}.

(** The log grew by one [exception] record that carries [e]. *)
Definition logged (e : exn) (before after : list log_record) : Prop :=
  exists r, after = before ++ [r] /\ lr_level r = EXCEPTION /\
            Exc e ∈ lr_message r.

(** [response["hits"]["hits"]]. *)
Definition hits_of (response : pyval) : result pyval :=
  match subscript response "hits" with
  | Return hits => subscript hits "hits"
  | Raise e => Raise e
  end.

(** The one request [query] makes. *)
Definition search_request (index : string) (q : pyval) (size : option Z) : request :=
  ReqSearch index (PyDict {[ "query" := q ]}) (default query_default_size size).

(** The value [delete_index] makes of the engine's answer. *)
Definition acknowledged_by (response : pyval) : bool :=
  match subscript response "acknowledged" with
  | Return a => truthy a
  | Raise _ => false
  end.

(** The alternatives of a date format, which the engine separates by [||]. *)
Fixpoint split_formats (s acc : string) : list string :=
  match s with
  | EmptyString => [acc]
  | String "|"%char (String "|"%char rest) =>
      acc :: split_formats rest EmptyString
  | String ch rest => split_formats rest (acc +:+ String ch EmptyString)
  end.

(** [mappings["properties"][field][key]]. *)
Definition field_property (mappings : pyval) (field key : string) : result pyval :=
  match subscript mappings "properties" with
  | Return properties =>
      match subscript properties field with
      | Return f => subscript f key
      | Raise e => Raise e
      end
  | Raise e => Raise e
  end.

(** What is assumed of the engine for [setup] to be idempotent: asking
    whether an index exists changes nothing, and an index whose creation
    succeeded exists afterwards. *)
Definition exists_is_read_only (B : backend) (name : string) : Prop :=
  forall c, snd (perform B (ReqIndicesExists name) c) = c.

Definition created_index_exists (B : backend) (name : string) : Prop :=
  forall settings mappings c x c',
    perform B (ReqIndicesCreate name settings mappings) c = (Return x, c') ->
    exists v, fst (perform B (ReqIndicesExists name) c') = Return v /\
              truthy v = true.

(** An engine holding one document in the index [data]. *)
Definition one_document : gmap string index_state :=
  {[ "data" := {| ix_settings := setup_settings; ix_mappings := setup_mappings;
                  ix_docs := [PyDict {[ "id" := PyInt 1000 ]}] |} ]}.

(** An object over the engine that never acknowledges a deletion. *)
Definition unacknowledged : world reluctant :=
  Build_world reluctant ∅ (Some ()) [] [] epoch_clock 0.

(** An endpoint that is down, the way the client library reports it:
    its [ping()] answers [False] for a request that fails, every other
    call raises the transport error. *)
Definition down : backend := {|
  cstate := unit;
  load_verify_locations := fun _ => Return ();
  connect := fun _ _ _ => Return ();
  perform := fun req c =>
    match req with
    | ReqPing => (Return (PyBool false), c)
    | _ => (Raise (TransportError "Connection refused"), c)
    end |}.

Definition cut_off : world down :=
  Build_world down ∅ (Some ()) [] [] epoch_clock 0.

(** An endpoint that is lost after its first answer, which is that the
    index does not exist; the state tells whether it has answered. *)
Definition flaky : backend := {|
  cstate := bool;
  load_verify_locations := fun _ => Return ();
  connect := fun _ _ _ => Return false;
  perform := fun req answered =>
    match req, answered with
    | ReqIndicesExists _, false => (Return (PyBool false), true)
    | _, _ => (Raise (TransportError "Connection reset"), true)
    end |}.

Definition dropping : world flaky :=
  Build_world flaky ∅ (Some false) [] [] epoch_clock 0.

(** What a method may do to the world. Its [footprint] allows it to add
    requests that satisfy [P] to the trace and records to the log; unless
    [writes] is set it leaves the dictionary objects and the clock alone. *)
Definition footprint {B : backend} (P : request -> Prop) (writes : bool)
    (w w' : world B) : Prop :=
  (exists new, calls w' = calls w ++ new /\ Forall P new) /\
  logs w `prefix_of` logs w' /\
  clock w' = clock w /\
  (writes = false -> heap w' = heap w /\ ticks w' = ticks w).

(** A method [preserves] a relation between worlds when every run of it,
    whether it returns or raises, ends in a world related to the one it
    started in. *)
Definition preserves {B : backend} {A : Type} (R : relation (world B))
    (m : M B A) : Prop :=
  forall w, R w (snd (m w)).

Definition keeps {B : backend} {A : Type} (P : request -> Prop) (writes : bool)
    (m : M B A) : Prop :=
  preserves (footprint P writes) m.

(** The client is attached in both worlds or in neither. *)
Definition same_attachment {B : backend} (w w' : world B) : Prop :=
  es w' = None <-> es w = None.

(** The level of the record [delete_index] logs for what the engine does
    with the deletion. *)
Definition deletion_level (outcome : result pyval) : log_level :=
  match outcome with
  | Raise _ => EXCEPTION
  | Return response =>
      match subscript response "acknowledged" with
      | Raise _ => EXCEPTION
      | Return a => if truthy a then INFO else ERROR
      end
  end.

(** The datetime [from_es_timestamp] should make of [ms] milliseconds. *)
Definition datetime_of_ms (ms : Z) (tz : string) : datetime :=
  {| dt_seconds := ms / 1000; dt_microsecond := ms mod 1000 * 1000;
     dt_tzinfo := Some tz |}.

(** A [close] that always succeeds. *)
Definition close_quietly {B : backend} (c : cstate B) : result pyval * cstate B :=
  (Return PyNone, c).

(** An engine that has no index and refuses every change. *)
Definition refusing : backend := {|
  cstate := unit;
  load_verify_locations := fun _ => Return ();
  connect := fun _ _ _ => Return ();
  perform := fun req c =>
    match req with
    | ReqIndicesExists _ => (Return (PyBool false), c)
    | _ => (Raise (ApiError 403 "security_exception"), c)
    end |}.

Definition refused : world refusing :=
  Build_world refusing ∅ (Some ()) [] [] epoch_clock 0.

(** An engine on which every index turns up right after it was first
    asked for; the state tells whether that has happened. *)
Definition racing : backend := {|
  cstate := bool;
  load_verify_locations := fun _ => Return ();
  connect := fun _ _ _ => Return false;
  perform := fun req asked =>
    match req with
    | ReqIndicesExists _ => (Return (PyBool asked), true)
    | _ => (Return PyNone, asked)
    end |}.

Definition raced : world racing :=
  Build_world racing ∅ (Some false) [] [] epoch_clock 0.

(** A clock that reads a quarter past the second, then three quarters. *)
Definition ticking_clock : nat -> datetime :=
  fun n => {| dt_seconds := 1652400000;
              dt_microsecond := match n with O => 250000 | S _ => 750000 end;
              dt_tzinfo := None |}.

(** A connected object whose caller holds the document [{"id": 1000}]. *)
Definition holding : world memory :=
  Build_world memory {[ 7%nat := {[ "id" := PyInt 1000 ]} ]} (Some ∅) [] []
    ticking_clock 0.

(** The record the constructor logs after a successful probe. *)
Definition connected_record (number : pyval) : log_record :=
  {| lr_level := INFO;
     lr_message := [Lit "Successfully connected to Elasticsearch. Server version: ";
                    Val number] |}.

Definition datetime_eqb (a b : datetime) : bool :=
  (dt_seconds a =? dt_seconds b) && (dt_microsecond a =? dt_microsecond b)
  && bool_decide (dt_tzinfo a = dt_tzinfo b).

(** [from_es_timestamp] is exact at [ms], and [to_es_timestamp] takes the
    result back to [ms] or to the millisecond before. *)
Definition within_one_ms (ms : Z) : bool :=
  match from_es_timestamp ms utc with
  | Return d =>
      datetime_eqb d (datetime_of_ms ms utc) &&
      match to_es_timestamp d with
      | Return ms' => (ms' =? ms) || (ms' =? ms - 1)
      | Raise _ => false
      end
  | Raise _ => false
  end.

(** * Properties *)

(** ** Unfolding the monad *)

Ltac unfold_monad :=
  unfold fall_through, try_except, bind, ret, raise, lift in *.

Ltac unfold_steps :=
  unfold log_info, log_error, log_exception, indices, client, call,
    deref, object_at, setitem, datetime_now in *.

Section Steps.
Context {B : backend}.
Implicit Types (w : world B) (req : request).

Lemma call_connected req w c :
  es w = Some c ->
  call req w = (fst (perform B req c), record_call req (snd (perform B req c)) w).
Proof.
  intros Hc. unfold call. rewrite Hc. by destruct (perform B req c).
Qed.

Lemma call_unset req w :
  es w = None -> call req w = (Raise no_client, w).
Proof. intros Hc. unfold call. by rewrite Hc. Qed.

(** A request leaves the object store, the log and the clock alone. *)
Lemma call_frame req w :
  heap (snd (call req w)) = heap w /\ logs (snd (call req w)) = logs w.
Proof.
  unfold call. destruct (es w) as [c|]; [|done].
  by destruct (perform B req c).
Qed.

(** [store] never touches the object store. *)
Lemma store_heap index body w :
  heap (snd (store index body w)) = heap w.
Proof.
  unfold store. unfold_monad. unfold_steps.
  destruct (es w) as [c|] eqn:Hc; [|done].
  cbn. rewrite Hc. by destruct (perform B _ c) as [[v|e] c'].
Qed.

(** What [store] does on a connected object holding a dictionary. *)
Lemma store_connected index body d w c :
  es w = Some c -> heap w !! body = Some d ->
  calls (snd (store index body w)) = calls w ++ [ReqIndex index (PyDict d)] /\
  fst (store index body w) =
    Return (match fst (perform B (ReqIndex index (PyDict d)) c) with
            | Return _ => true
            | Raise _ => false
            end).
Proof.
  intros Hc Hd. unfold store. unfold_monad. unfold_steps.
  rewrite Hc. cbn. rewrite Hd, Hc. by destruct (perform B _ c) as [[v|e] c'].
Qed.

Lemma put_unfold body d ms w :
  heap w !! body = Some d ->
  to_es_timestamp (now w) = Return ms ->
  put body w = store "data" body (stamped body d ms w).
Proof.
  intros Hd Hms. unfold put, stamped. unfold_monad.
  unfold datetime_now, setitem. rewrite Hms. cbn. by rewrite Hd.
Qed.

End Steps.

(** ** C1: the document [put] stores *)



(** ** C10: [put] writes into the caller's dictionary *)



(** ** C2: the constructor *)

(** C2, as stated, fails: the TLS context is prepared before the [try],
    so when the trust anchors cannot be loaded from [ROOT_CA] the
    constructor raises, nothing is logged and no client is attached. *)
Lemma init_raises_when_ca_missing :
  let r := init "https://my.es.cluster:9200" "admin" "password" (fresh missing_ca) in
  fst r = Raise (OSError "No such file or directory: /etc/ssl/certs") /\
  logs (snd r) = [] /\ es (snd r) = None.
Proof. vm_compute. done. Qed.

(** C2, amended. Once the TLS context has been prepared, constructing the
    object never raises: whatever exception the suite of the [try] ends
    with (building the client, the [info()] probe, reading the version,
    [setup()]) is caught, one record naming the URL and the exception is
    logged, and the constructor returns. *)
Theorem init_swallows_connection_failures {B : backend}
    (url user secret : string) (w : world B) :
  load_verify_locations B ROOT_CA = Return () ->
  exists w',
    init url user secret w = (Return (), w') /\
    (forall ex w1,
       init_connect url user secret init_context w = (Raise ex, w1) ->
       w' = add_log (init_failed url ex) w1) /\
    (forall w1,
       init_connect url user secret init_context w = (Return (), w1) ->
       w' = w1).
Proof.
  intros Hca. unfold init, context_load_verify_locations. unfold_monad.
  rewrite Hca. cbn.
  change (init_connect url user secret _ w)
    with (init_connect url user secret init_context w).
  destruct (init_connect url user secret init_context w) as [[[]|ex] w1] eqn:Hi.
  - exists w1. split; [done|]. split; [intros ? ? [=]|by intros ? [= <-]].
  - eexists. split; [reflexivity|]. split; [by intros ? ? [= <- <-]|intros ? [=]].
Qed.

(** Constructing against an unreachable endpoint: the probe fails, the
    failure is logged, the object exists. *)
Lemma init_swallows_connection_failures_witness :
  exists w',
    init "https://my.es.cluster:9200" "admin" "password" (fresh unreachable)
      = (Return (), w') /\
    (forall ex w1,
       init_connect "https://my.es.cluster:9200" "admin" "password" init_context
         (fresh unreachable) = (Raise ex, w1) ->
       w' = add_log (init_failed "https://my.es.cluster:9200" ex) w1) /\
    (forall w1,
       init_connect "https://my.es.cluster:9200" "admin" "password" init_context
         (fresh unreachable) = (Return (), w1) ->
       w' = w1).
Proof.
  apply (init_swallows_connection_failures (B := unreachable)
           "https://my.es.cluster:9200" "admin" "password" (fresh unreachable)).
  reflexivity.
Defined.

(** ** C3: which methods guard the client *)

(** One step of case analysis on what the outside world answers. *)
Ltac world_case :=
  match goal with
  | |- context [match es ?w with _ => _ end] =>
      let H := fresh "Hes" in destruct (es w) eqn:H
  | |- context [perform ?B ?r ?c] =>
      let H := fresh "Hp" in destruct (perform B r c) as [[?|?] ?] eqn:H
  | |- context [match heap ?w !! ?b with _ => _ end] =>
      let H := fresh "Hh" in destruct (heap w !! b) eqn:H
  | |- context [subscript ?v ?k] =>
      let H := fresh "Hs" in destruct (subscript v k) eqn:H
  | |- context [if truthy ?v then _ else _] =>
      let H := fresh "Ht" in destruct (truthy v) eqn:H
  | |- context [if negb (truthy ?v) then _ else _] =>
      let H := fresh "Ht" in destruct (truthy v) eqn:H
  end; cbn in *.

Ltac run_method := unfold_monad; unfold_steps; cbn; repeat world_case.

Section Guards.
Context {B : backend}.
Implicit Types (w : world B).

Lemma empty_index_never_raises name w : never_raises (empty_index name) w.
Proof. unfold never_raises, empty_index. run_method; eauto. Qed.

Lemma query_never_raises index q raw size w :
  never_raises (query index q raw size) w.
Proof.
  unfold never_raises, query.
  destruct (default query_default_raw raw); run_method; eauto.
Qed.

Lemma store_never_raises index body w : never_raises (store index body) w.
Proof. unfold never_raises, store. run_method; eauto. Qed.

Lemma get_never_raises q w : never_raises (get q) w.
Proof. apply query_never_raises. Qed.

Lemma put_never_raises body d ms w :
  heap w !! body = Some d -> to_es_timestamp (now w) = Return ms ->
  never_raises (put body) w.
Proof.
  intros Hd Hms. unfold never_raises.
  rewrite (put_unfold body d ms w Hd Hms). apply store_never_raises.
Qed.

(** The result of [check_index] is the client's answer, or its error. *)
Lemma check_index_connected name w c :
  es w = Some c ->
  check_index name w =
    (match fst (perform B (ReqIndicesExists name) c) with
     | Return v => Return (truthy v)
     | Raise e => Raise e
     end,
     record_call (ReqIndicesExists name) (snd (perform B (ReqIndicesExists name) c)) w).
Proof.
  intros Hc. unfold check_index. unfold_monad. unfold_steps.
  rewrite Hc. cbn. rewrite Hc.
  by destruct (perform B _ c) as [[v|e] c'].
Qed.

Lemma ping_connected w c :
  es w = Some c ->
  ping w =
    (match fst (perform B ReqPing c) with
     | Return v => Return (truthy v)
     | Raise e => Raise e
     end,
     record_call ReqPing (snd (perform B ReqPing c)) w).
Proof.
  intros Hc. unfold ping. unfold_monad. unfold_steps.
  rewrite Hc. cbn. rewrite Hc.
  by destruct (perform B _ c) as [[v|e] c'].
Qed.

(** After a check that answered, [create_index] cannot raise. *)
Lemma create_index_guarded name settings mappings w c v :
  es w = Some c ->
  fst (perform B (ReqIndicesExists name) c) = Return v ->
  never_raises (create_index name settings mappings) w.
Proof.
  intros Hc Hv. unfold never_raises, create_index.
  unfold bind at 1. rewrite (check_index_connected name w c Hc), Hv.
  destruct (truthy v); [unfold ret; eauto|]. run_method; eauto.
Qed.

Lemma delete_index_guarded name w c v :
  es w = Some c ->
  fst (perform B (ReqIndicesExists name) c) = Return v ->
  never_raises (delete_index name) w.
Proof.
  intros Hc Hv. unfold never_raises, delete_index. unfold_monad. unfold_steps.
  rewrite Hc. cbn. rewrite Hc.
  destruct (perform B (ReqIndicesExists name) c) as [r c'].
  cbn in Hv. subst r. cbn. repeat world_case; eauto.
Qed.

(** [setup] checks, and [create_index] checks again. *)
Lemma setup_guarded w c v c1 :
  es w = Some c ->
  perform B (ReqIndicesExists "data") c = (Return v, c1) ->
  truthy v = true \/
    (exists v', fst (perform B (ReqIndicesExists "data") c1) = Return v') ->
  never_raises setup w.
Proof.
  intros Hc Hv Hnext. unfold never_raises, setup.
  unfold bind at 1. rewrite (check_index_connected "data" w c Hc), Hv. cbn.
  destruct (truthy v) eqn:Ht; cbn; [unfold ret; eauto|].
  destruct Hnext as [|[v' Hv']]; [done|].
  by eapply create_index_guarded.
Qed.

(** No handler stands between the caller and [ping()] or
    [indices().exists()]. *)
Lemma ping_relays w c v c' :
  es w = Some c -> perform B ReqPing c = (Return v, c') ->
  fst (ping w) = Return (truthy v) /\ logs (snd (ping w)) = logs w.
Proof. intros Hc Hv. rewrite (ping_connected w c Hc), Hv. by cbn. Qed.

Lemma check_index_reraises name w c e c' :
  es w = Some c -> perform B (ReqIndicesExists name) c = (Raise e, c') ->
  fst (check_index name w) = Raise e /\
  logs (snd (check_index name w)) = logs w.
Proof.
  intros Hc He. rewrite (check_index_connected name w c Hc), He. by cbn.
Qed.

Lemma create_index_reraises name settings mappings w c e c' :
  es w = Some c -> perform B (ReqIndicesExists name) c = (Raise e, c') ->
  fst (create_index name settings mappings w) = Raise e /\
  logs (snd (create_index name settings mappings w)) = logs w.
Proof.
  intros Hc He. unfold create_index, check_index. unfold_monad. unfold_steps.
  by repeat (progress (rewrite ?Hc, ?He; cbn)).
Qed.

Lemma delete_index_reraises name w c e c' :
  es w = Some c -> perform B (ReqIndicesExists name) c = (Raise e, c') ->
  fst (delete_index name w) = Raise e /\
  logs (snd (delete_index name w)) = logs w.
Proof.
  intros Hc He. unfold delete_index. unfold_monad. unfold_steps.
  by repeat (progress (rewrite ?Hc, ?He; cbn)).
Qed.

Lemma setup_reraises_first w c e c' :
  es w = Some c -> perform B (ReqIndicesExists "data") c = (Raise e, c') ->
  fst (setup w) = Raise e /\ logs (snd (setup w)) = logs w.
Proof.
  intros Hc He. unfold setup, check_index. unfold_monad. unfold_steps.
  by repeat (progress (rewrite ?Hc, ?He; cbn)).
Qed.

Lemma setup_reraises_second w c v c1 e c2 :
  es w = Some c ->
  perform B (ReqIndicesExists "data") c = (Return v, c1) -> truthy v = false ->
  perform B (ReqIndicesExists "data") c1 = (Raise e, c2) ->
  fst (setup w) = Raise e /\ logs (snd (setup w)) = logs w.
Proof.
  intros Hc Hv Ht He. unfold setup, create_index, check_index.
  unfold_monad. unfold_steps.
  by repeat (progress (rewrite ?Hc, ?Hv, ?Ht, ?He; cbn)).
Qed.

(** What [put] raises is its own: the error of the timestamp conversion,
    or of the assignment into an argument that is not a dictionary. *)
Lemma put_raises_own body w e :
  fst (put body w) = Raise e ->
  to_es_timestamp (now w) = Raise e \/
  (heap w !! body = None /\
   e = TypeError "object does not support item assignment").
Proof.
  destruct (to_es_timestamp (now w)) as [ms|e'] eqn:Hms;
    [destruct (heap w !! body) as [d|] eqn:Hd|].
  - destruct (put_never_raises body d ms w Hd Hms) as (v & w' & ->). done.
  - unfold put. unfold_monad. unfold datetime_now, setitem.
    rewrite Hms. cbn. rewrite Hd. cbn. intros [= <-]. by right.
  - unfold put. unfold_monad. unfold datetime_now.
    rewrite Hms. cbn. intros [= <-]. by left.
Qed.

(** A client error becomes the method's falsy result and a log record. *)
Lemma empty_index_failure name w c e c' :
  es w = Some c ->
  perform B (ReqDeleteByQuery name match_all_query) c = (Raise e, c') ->
  fst (empty_index name w) = Return false /\
  logged e (logs w) (logs (snd (empty_index name w))).
Proof.
  intros Hc He. unfold empty_index, logged. unfold_monad. unfold_steps.
  repeat (progress (rewrite ?Hc, ?He; cbn)).
  split; [done|]. eexists. split; [done|]. split; [done|]. set_solver.
Qed.

Lemma store_failure index body d w c e c' :
  es w = Some c -> heap w !! body = Some d ->
  perform B (ReqIndex index (PyDict d)) c = (Raise e, c') ->
  fst (store index body w) = Return false /\
  logged e (logs w) (logs (snd (store index body w))).
Proof.
  intros Hc Hd He. unfold store, logged. unfold_monad. unfold_steps.
  repeat (progress (rewrite ?Hc, ?Hd, ?He; cbn)).
  split; [done|]. eexists. split; [done|]. split; [done|]. set_solver.
Qed.

Lemma query_failure index q raw size w c e c' :
  es w = Some c ->
  perform B (ReqSearch index (PyDict {[ "query" := q ]})
               (default query_default_size size)) c = (Raise e, c') ->
  fst (query index q raw size w) = Return PyNone /\
  logged e (logs w) (logs (snd (query index q raw size w))).
Proof.
  intros Hc He. unfold query, logged. unfold_monad. unfold_steps.
  destruct (default query_default_raw raw);
    repeat (progress (rewrite ?Hc, ?He; cbn));
    (split; [done|]); eexists; (split; [done|]); (split; [done|]); set_solver.
Qed.

Lemma get_failure q w c e c' :
  es w = Some c ->
  perform B (ReqSearch "data"
               (PyDict {[ "query" := match q with PyNone => PyDict ∅ | _ => q end ]})
               query_default_size) c = (Raise e, c') ->
  fst (get q w) = Return PyNone /\
  logged e (logs w) (logs (snd (get q w))).
Proof. intros Hc He. unfold get. by eapply query_failure. Qed.

Lemma put_failure body d ms w c e c' :
  heap w !! body = Some d -> to_es_timestamp (now w) = Return ms ->
  es w = Some c ->
  perform B (ReqIndex "data" (PyDict (<["timestamp" := PyInt ms]> d))) c
    = (Raise e, c') ->
  fst (put body w) = Return false /\
  logged e (logs w) (logs (snd (put body w))).
Proof.
  intros Hd Hms Hc He. rewrite (put_unfold body d ms w Hd Hms).
  apply (store_failure "data" body (<["timestamp" := PyInt ms]> d)
           (stamped body d ms w) c e c'); [done| |done].
  cbn. apply lookup_insert_eq.
Qed.

Lemma create_index_failure name settings mappings w c v c1 e c2 :
  es w = Some c ->
  perform B (ReqIndicesExists name) c = (Return v, c1) -> truthy v = false ->
  perform B (ReqIndicesCreate name settings mappings) c1 = (Raise e, c2) ->
  fst (create_index name settings mappings w) = Return false /\
  exists r1,
    lr_level r1 = EXCEPTION /\
    logged e (logs w ++ [r1]) (logs (snd (create_index name settings mappings w))).
Proof.
  intros Hc Hv Ht He. unfold create_index, check_index, logged.
  unfold_monad. unfold_steps.
  repeat (progress (rewrite ?Hc, ?Hv, ?Ht, ?He; cbn)).
  split; [done|]. eexists. split; [|eexists; split; [done|]]; [done|].
  split; [done|]. set_solver.
Qed.

Lemma setup_failure w c v c1 v' c2 e c3 :
  es w = Some c ->
  perform B (ReqIndicesExists "data") c = (Return v, c1) -> truthy v = false ->
  perform B (ReqIndicesExists "data") c1 = (Return v', c2) -> truthy v' = false ->
  perform B (ReqIndicesCreate "data" setup_settings setup_mappings) c2
    = (Raise e, c3) ->
  fst (setup w) = Return false /\
  exists r1,
    lr_level r1 = EXCEPTION /\
    logged e (logs w ++ [r1]) (logs (snd (setup w))).
Proof.
  intros Hc Hv Ht Hv' Ht' He. unfold setup, create_index, check_index, logged.
  unfold_monad. unfold_steps.
  repeat (progress (rewrite ?Hc, ?Hv, ?Ht, ?Hv', ?Ht', ?He; cbn)).
  split; [done|]. eexists. split; [|eexists; split; [done|]]; [done|].
  split; [done|]. set_solver.
Qed.

Lemma delete_index_failure name w c v c1 e c2 :
  es w = Some c ->
  perform B (ReqIndicesExists name) c = (Return v, c1) -> truthy v = true ->
  perform B (ReqIndicesDelete name) c1 = (Raise e, c2) ->
  fst (delete_index name w) = Return false /\
  logged e (logs w) (logs (snd (delete_index name w))).
Proof.
  intros Hc Hv Ht He. unfold delete_index, logged. unfold_monad. unfold_steps.
  repeat (progress (rewrite ?Hc, ?Hv, ?Ht, ?He; cbn)).
  split; [done|]. eexists. split; [done|]. split; [done|]. set_solver.
Qed.

End Guards.

(** C3, as stated, fails: [check_index] has no handler, and
    [create_index], [delete_index] and [setup] run their existence check
    outside the [try]. Against an endpoint that is down each of the four
    re-raises the client's error, and logs nothing. *)
Lemma unguarded_methods_reraise :
  let e := TransportError "Connection refused" in
  (fst (check_index "data" cut_off) = Raise e /\
   logs (snd (check_index "data" cut_off)) = []) /\
  (fst (create_index "data" setup_settings setup_mappings cut_off) = Raise e /\
   logs (snd (create_index "data" setup_settings setup_mappings cut_off)) = []) /\
  (fst (delete_index "data" cut_off) = Raise e /\
   logs (snd (delete_index "data" cut_off)) = []) /\
  (fst (setup cut_off) = Raise e /\
   logs (snd (setup cut_off)) = []).
Proof. vm_compute. done. Qed.

(** C3, amended.

    - [empty_index], [query], [store] and [get] never raise, and [put]
      raises nothing but its own errors (the timestamp conversion, the
      assignment into a body that is not a dictionary): an error of the
      client is caught, logged and turned into [False] ([None] for
      [query] and [get]).
    - [ping] has no handler and logs nothing: whenever the client's
      [ping()] answers, it returns the truth value of the answer.
    - [check_index], [create_index] and [delete_index] re-raise the error
      of [indices().exists], unlogged. When that check answers,
      [create_index] and [delete_index] return without raising: the error
      of their create or delete request is caught, logged and turned
      into [False].
    - [setup] checks, and [create_index] checks again. It returns without
      raising when the first check finds the index or when both checks
      answer, an error of the creation being logged and turned into
      [False]; it re-raises the error of either check, unlogged. *)
Theorem guarded_methods_swallow_client_errors {B : backend} (w : world B) :
  (* empty_index, query, store, get, put: nothing of the client's is raised *)
  (forall name, never_raises (empty_index name) w) /\
  (forall index q raw size, never_raises (query index q raw size) w) /\
  (forall index body, never_raises (store index body) w) /\
  (forall q, never_raises (get q) w) /\
  (forall body d ms,
     heap w !! body = Some d -> to_es_timestamp (now w) = Return ms ->
     never_raises (put body) w) /\
  (forall body e,
     fst (put body w) = Raise e ->
     to_es_timestamp (now w) = Raise e \/
     (heap w !! body = None /\
      e = TypeError "object does not support item assignment")) /\
  (* ... the client's error is logged and becomes the falsy result *)
  (forall name c e c',
     es w = Some c ->
     perform B (ReqDeleteByQuery name match_all_query) c = (Raise e, c') ->
     fst (empty_index name w) = Return false /\
     logged e (logs w) (logs (snd (empty_index name w)))) /\
  (forall index q raw size c e c',
     es w = Some c ->
     perform B (ReqSearch index (PyDict {[ "query" := q ]})
                  (default query_default_size size)) c = (Raise e, c') ->
     fst (query index q raw size w) = Return PyNone /\
     logged e (logs w) (logs (snd (query index q raw size w)))) /\
  (forall index body d c e c',
     es w = Some c -> heap w !! body = Some d ->
     perform B (ReqIndex index (PyDict d)) c = (Raise e, c') ->
     fst (store index body w) = Return false /\
     logged e (logs w) (logs (snd (store index body w)))) /\
  (forall q c e c',
     es w = Some c ->
     perform B (ReqSearch "data"
                  (PyDict {[ "query" := match q with PyNone => PyDict ∅ | _ => q end ]})
                  query_default_size) c = (Raise e, c') ->
     fst (get q w) = Return PyNone /\
     logged e (logs w) (logs (snd (get q w)))) /\
  (forall body d ms c e c',
     heap w !! body = Some d -> to_es_timestamp (now w) = Return ms ->
     es w = Some c ->
     perform B (ReqIndex "data" (PyDict (<["timestamp" := PyInt ms]> d))) c
       = (Raise e, c') ->
     fst (put body w) = Return false /\
     logged e (logs w) (logs (snd (put body w)))) /\
  (* ping *)
  (forall c v c',
     es w = Some c -> perform B ReqPing c = (Return v, c') ->
     fst (ping w) = Return (truthy v) /\ logs (snd (ping w)) = logs w) /\
  (* check_index, create_index, delete_index: the existence check *)
  (forall name c e c',
     es w = Some c -> perform B (ReqIndicesExists name) c = (Raise e, c') ->
     (fst (check_index name w) = Raise e /\
      logs (snd (check_index name w)) = logs w) /\
     (forall settings mappings,
        fst (create_index name settings mappings w) = Raise e /\
        logs (snd (create_index name settings mappings w)) = logs w) /\
     (fst (delete_index name w) = Raise e /\
      logs (snd (delete_index name w)) = logs w)) /\
  (forall name settings mappings c v,
     es w = Some c -> fst (perform B (ReqIndicesExists name) c) = Return v ->
     never_raises (create_index name settings mappings) w) /\
  (forall name settings mappings c v c1 e c2,
     es w = Some c ->
     perform B (ReqIndicesExists name) c = (Return v, c1) -> truthy v = false ->
     perform B (ReqIndicesCreate name settings mappings) c1 = (Raise e, c2) ->
     fst (create_index name settings mappings w) = Return false /\
     exists r1,
       lr_level r1 = EXCEPTION /\
       logged e (logs w ++ [r1])
         (logs (snd (create_index name settings mappings w)))) /\
  (forall name c v,
     es w = Some c -> fst (perform B (ReqIndicesExists name) c) = Return v ->
     never_raises (delete_index name) w) /\
  (forall name c v c1 e c2,
     es w = Some c ->
     perform B (ReqIndicesExists name) c = (Return v, c1) -> truthy v = true ->
     perform B (ReqIndicesDelete name) c1 = (Raise e, c2) ->
     fst (delete_index name w) = Return false /\
     logged e (logs w) (logs (snd (delete_index name w)))) /\
  (* setup: its own check, then the check of create_index *)
  (forall c v c1,
     es w = Some c ->
     perform B (ReqIndicesExists "data") c = (Return v, c1) ->
     truthy v = true \/
       (exists v', fst (perform B (ReqIndicesExists "data") c1) = Return v') ->
     never_raises setup w) /\
  (forall c v c1 v' c2 e c3,
     es w = Some c ->
     perform B (ReqIndicesExists "data") c = (Return v, c1) -> truthy v = false ->
     perform B (ReqIndicesExists "data") c1 = (Return v', c2) ->
     truthy v' = false ->
     perform B (ReqIndicesCreate "data" setup_settings setup_mappings) c2
       = (Raise e, c3) ->
     fst (setup w) = Return false /\
     exists r1,
       lr_level r1 = EXCEPTION /\
       logged e (logs w ++ [r1]) (logs (snd (setup w)))) /\
  (forall c e c',
     es w = Some c -> perform B (ReqIndicesExists "data") c = (Raise e, c') ->
     fst (setup w) = Raise e /\ logs (snd (setup w)) = logs w) /\
  (forall c v c1 e c2,
     es w = Some c ->
     perform B (ReqIndicesExists "data") c = (Return v, c1) -> truthy v = false ->
     perform B (ReqIndicesExists "data") c1 = (Raise e, c2) ->
     fst (setup w) = Raise e /\ logs (snd (setup w)) = logs w).
Proof.
  repeat apply conj.
  - intros name. apply empty_index_never_raises.
  - intros index q raw size. apply query_never_raises.
  - intros index body. apply store_never_raises.
  - intros q. apply get_never_raises.
  - intros body d ms. apply put_never_raises.
  - intros body e. apply put_raises_own.
  - intros name c e c'. apply empty_index_failure.
  - intros index q raw size c e c'. apply query_failure.
  - intros index body d c e c'. apply store_failure.
  - intros q c e c'. apply get_failure.
  - intros body d ms c e c'. apply put_failure.
  - intros c v c'. apply ping_relays.
  - intros name c e c' Hc He.
    split; [by eapply check_index_reraises|].
    split; [intros; by eapply create_index_reraises|].
    by eapply delete_index_reraises.
  - intros name settings mappings c v. apply create_index_guarded.
  - intros name settings mappings c v c1 e c2. apply create_index_failure.
  - intros name c v. apply delete_index_guarded.
  - intros name c v c1 e c2. apply delete_index_failure.
  - intros c v c1. apply setup_guarded.
  - intros c v c1 v' c2 e c3. apply setup_failure.
  - intros c e c'. apply setup_reraises_first.
  - intros c v c1 e c2. apply setup_reraises_second.
Qed.

(** The methods against an endpoint that is down, against the in-memory
    engine, whose existence check answers, against an engine that
    refuses the creation, and against an endpoint lost between the two
    checks of [setup]. *)
Lemma guarded_methods_swallow_client_errors_witness :
  let w7 := set_heap {[ 7%nat := {[ "id" := PyInt 1000 ]} ]} cut_off in
  let e := TransportError "Connection refused" in
  (fst (empty_index "data" cut_off) = Return false /\
   fst (query "data" (PyDict ∅) None None cut_off) = Return PyNone /\
   fst (store "data" 7%nat w7) = Return false /\
   fst (get PyNone cut_off) = Return PyNone /\
   fst (put 7%nat w7) = Return false) /\
  (fst (ping cut_off) = Return false /\ logs (snd (ping cut_off)) = []) /\
  (fst (check_index "data" cut_off) = Raise e /\
   fst (delete_index "data" cut_off) = Raise e /\
   fst (setup cut_off) = Raise e) /\
  (never_raises (create_index "logs" (PyDict ∅) (PyDict ∅)) (connected ∅) /\
   never_raises (delete_index "data") (connected ∅) /\
   never_raises setup (connected ∅)) /\
  (fst (create_index "logs" (PyDict ∅) (PyDict ∅) refused) = Return false /\
   fst (setup refused) = Return false) /\
  fst (setup dropping) = Raise (TransportError "Connection reset").
Proof.
  intros w7 e.
  pose proof (guarded_methods_swallow_client_errors cut_off)
    as (_ & _ & _ & _ & _ & _ & Hempty & Hquery & _ & Hget & _ & Hping &
        Hcheck & _ & _ & _ & _ & _ & _ & Hsetup1 & _).
  pose proof (guarded_methods_swallow_client_errors w7)
    as (_ & _ & _ & _ & _ & _ & _ & _ & Hstore & _ & Hput & _).
  pose proof (guarded_methods_swallow_client_errors (connected ∅))
    as (_ & _ & _ & _ & _ & _ & _ & _ & _ & _ & _ & _ & _ &
        Hcreate & _ & Hdelete & _ & Hsetup & _).
  pose proof (guarded_methods_swallow_client_errors refused)
    as (_ & _ & _ & _ & _ & _ & _ & _ & _ & _ & _ & _ & _ &
        _ & Hrefused & _ & _ & _ & Hsetup_refused & _).
  pose proof (guarded_methods_swallow_client_errors dropping)
    as (_ & _ & _ & _ & _ & _ & _ & _ & _ & _ & _ & _ & _ &
        _ & _ & _ & _ & _ & _ & _ & Hsetup2).
  repeat apply conj.
  - apply (Hempty "data" () e ()); reflexivity.
  - apply (Hquery "data" (PyDict ∅) None None () e ()); reflexivity.
  - apply (Hstore "data" 7%nat {[ "id" := PyInt 1000 ]} () e ());
      vm_compute; reflexivity.
  - apply (Hget PyNone () e ()); reflexivity.
  - apply (Hput 7%nat {[ "id" := PyInt 1000 ]} 1652400000250 () e ());
      vm_compute; reflexivity.
  - apply (Hping () (PyBool false) ()); reflexivity.
  - apply (Hping () (PyBool false) ()); reflexivity.
  - apply (Hcheck "data" () e ()); reflexivity.
  - apply (Hcheck "data" () e ()); reflexivity.
  - apply (Hsetup1 () e ()); reflexivity.
  - apply (Hcreate "logs" (PyDict ∅) (PyDict ∅) ∅ (PyBool false));
      vm_compute; reflexivity.
  - apply (Hdelete "data" ∅ (PyBool false)); vm_compute; reflexivity.
  - apply (Hsetup ∅ (PyBool false) ∅); [reflexivity|reflexivity|].
    right. eexists. reflexivity.
  - apply (Hrefused "logs" (PyDict ∅) (PyDict ∅) () (PyBool false) ()
             (ApiError 403 "security_exception") ()); reflexivity.
  - apply (Hsetup_refused () (PyBool false) () (PyBool false) ()
             (ApiError 403 "security_exception") ()); reflexivity.
  - apply (Hsetup2 false (PyBool false) true
             (TransportError "Connection reset") true); reflexivity.
Defined.

(** ** C4 and C5: [query] *)

Section Query.
Context {B : backend}.
Implicit Types (w : world B).

(** [query] on a connected object, in full. *)
Lemma query_connected index q raw size w c :
  es w = Some c ->
  let req := search_request index q size in
  calls (snd (query index q raw size w)) = calls w ++ [req] /\
  es (snd (query index q raw size w)) = Some (snd (perform B req c)) /\
  fst (query index q raw size w) =
    Return (match fst (perform B req c) with
            | Raise _ => PyNone
            | Return response =>
                if default query_default_raw raw then response
                else match hits_of response with
                     | Return hits => hits
                     | Raise _ => PyNone
                     end
            end).
Proof.
  intros Hc req. subst req. unfold query, hits_of, search_request.
  unfold_monad. unfold_steps.
  destruct (default query_default_raw raw);
    repeat (progress (rewrite ?Hc; cbn));
    destruct (perform B _ c) as [[?|?] ?]; cbn; try done;
    repeat (match goal with
            | |- context [subscript ?v ?k] => destruct (subscript v k)
            end; cbn);
    done.
Qed.

Lemma query_unset index q raw size w :
  es w = None ->
  fst (query index q raw size w) = Return PyNone /\
  calls (snd (query index q raw size w)) = calls w.
Proof.
  intros Hc. unfold query. unfold_monad. unfold_steps.
  destruct (default query_default_raw raw); by rewrite Hc.
Qed.

End Query.

(** C4. [query(index, query, raw, size)] hands the client exactly one
    search: on [index], with the body [{"query": query}] around the
    untouched expression and the given [size], 10000 when none is given.
    It never raises; when the client raises, when the object has no
    client, or when the response of a non-raw search has no
    ["hits"]["hits"], it returns [None]. *)
Theorem query_wraps_query_and_returns_none_on_error {B : backend}
    (index : string) (q : pyval) (raw : option bool) (size : option Z)
    (w : world B) :
  never_raises (query index q raw size) w /\
  search_request index q None = ReqSearch index (PyDict {[ "query" := q ]}) 10000 /\
  (forall n, search_request index q (Some n)
             = ReqSearch index (PyDict {[ "query" := q ]}) n) /\
  (forall c, es w = Some c ->
     calls (snd (query index q raw size w))
       = calls w ++ [search_request index q size]) /\
  (forall c e c', es w = Some c ->
     perform B (search_request index q size) c = (Raise e, c') ->
     fst (query index q raw size w) = Return PyNone) /\
  (forall c response c' e, es w = Some c ->
     perform B (search_request index q size) c = (Return response, c') ->
     default query_default_raw raw = false ->
     hits_of response = Raise e ->
     fst (query index q raw size w) = Return PyNone) /\
  (es w = None ->
     fst (query index q raw size w) = Return PyNone /\
     calls (snd (query index q raw size w)) = calls w).
Proof.
  repeat apply conj; try done.
  - apply query_never_raises.
  - intros c Hc. by destruct (query_connected index q raw size w c Hc) as [-> _].
  - intros c e c' Hc He.
    destruct (query_connected index q raw size w c Hc) as (_ & _ & ->).
    rewrite He. done.
  - intros c response c' e Hc Hr Hraw Hh.
    destruct (query_connected index q raw size w c Hc) as (_ & _ & ->).
    rewrite Hr. cbn [fst]. by rewrite Hraw, Hh.
  - apply query_unset.
Qed.

(** The example of the module's docstring, against an unreachable
    endpoint and against an engine without the index. *)
Lemma query_wraps_query_and_returns_none_on_error_witness :
  let q := PyDict {[ "match" := PyDict {[ "id" := PyDict {[ "query" := PyInt 1000 ]} ]} ]} in
  calls (snd (query "data" q None None offline))
    = [ReqSearch "data" (PyDict {[ "query" := q ]}) 10000] /\
  fst (query "data" q None None offline) = Return PyNone /\
  fst (query "data" q (Some false) (Some 5) (connected ∅)) = Return PyNone /\
  fst (query "data" q None None (fresh unreachable)) = Return PyNone.
Proof.
  intros q.
  pose proof (query_wraps_query_and_returns_none_on_error "data" q None None offline)
    as (_ & _ & _ & Hcalls & Hraise & _).
  pose proof (query_wraps_query_and_returns_none_on_error "data" q (Some false)
                (Some 5) (connected ∅)) as (_ & _ & _ & _ & Hraise' & _).
  pose proof (query_wraps_query_and_returns_none_on_error "data" q None None
                (fresh unreachable)) as (_ & _ & _ & _ & _ & _ & Hunset).
  repeat apply conj.
  - apply (Hcalls ()). reflexivity.
  - apply (Hraise () (TransportError "Connection refused") ()); reflexivity.
  - apply (Hraise' ∅ (not_found "data") ∅); vm_compute; reflexivity.
  - apply Hunset. reflexivity.
Defined.

(** C5, as stated, fails: the two branches differ by the subscript
    [["hits"]["hits"]]. On the same index the raw search returns the whole
    response, a dictionary, and the other the list of hits inside it. *)
Lemma raw_and_hits_results_differ :
  let doc := PyDict {[ "id" := PyInt 1000 ]} in
  let w := connected one_document in
  fst (query "data" match_all_query (Some true) None w)
    = Return (search_response [doc]) /\
  fst (query "data" match_all_query (Some false) None w)
    = Return (PyList [hit doc]) /\
  fst (query "data" match_all_query (Some true) None w)
    <> fst (query "data" match_all_query (Some false) None w).
Proof.
  assert (Hraw : fst (query "data" match_all_query (Some true) None
                        (connected one_document))
                 = Return (search_response [PyDict {[ "id" := PyInt 1000 ]}]))
    by (vm_compute; reflexivity).
  assert (Hhits : fst (query "data" match_all_query (Some false) None
                         (connected one_document))
                  = Return (PyList [hit (PyDict {[ "id" := PyInt 1000 ]})]))
    by (vm_compute; reflexivity).
  cbv zeta. rewrite Hraw, Hhits. repeat split. discriminate.
Qed.

(** C5, amended. Both branches hand the client the same search and leave
    it in the same state; on success [raw=True] returns the client's whole
    response and [raw=False] returns [response["hits"]["hits"]] ([None]
    when the response has no such entry). *)
Theorem query_raw_returns_response_else_hits {B : backend}
    (index : string) (q : pyval) (size : option Z) (w : world B)
    (c : cstate B) (response : pyval) (c' : cstate B) :
  es w = Some c ->
  perform B (search_request index q size) c = (Return response, c') ->
  fst (query index q (Some true) size w) = Return response /\
  fst (query index q (Some false) size w)
    = Return (match hits_of response with
              | Return hits => hits
              | Raise _ => PyNone
              end) /\
  calls (snd (query index q (Some true) size w))
    = calls (snd (query index q (Some false) size w)) /\
  es (snd (query index q (Some true) size w))
    = es (snd (query index q (Some false) size w)).
Proof.
  intros Hc Hr.
  destruct (query_connected index q (Some true) size w c Hc) as (Hc1 & He1 & ->).
  destruct (query_connected index q (Some false) size w c Hc) as (Hc2 & He2 & ->).
  rewrite Hc1, Hc2, He1, He2, Hr. done.
Qed.

Lemma query_raw_returns_response_else_hits_witness :
  let doc := PyDict {[ "id" := PyInt 1000 ]} in
  let w := connected one_document in
  fst (query "data" match_all_query (Some true) None w)
    = Return (search_response [doc]) /\
  fst (query "data" match_all_query (Some false) None w)
    = Return (match hits_of (search_response [doc]) with
              | Return hits => hits
              | Raise _ => PyNone
              end) /\
  calls (snd (query "data" match_all_query (Some true) None w))
    = calls (snd (query "data" match_all_query (Some false) None w)) /\
  es (snd (query "data" match_all_query (Some true) None w))
    = es (snd (query "data" match_all_query (Some false) None w)).
Proof.
  apply (query_raw_returns_response_else_hits "data" match_all_query None
           (connected one_document) one_document
           (search_response [PyDict {[ "id" := PyInt 1000 ]}]) one_document);
    vm_compute; reflexivity.
Defined.

(** ** C6 and C7: creating and deleting an index *)

Section IndexLifecycle.
Context {B : backend}.
Implicit Types (w : world B).

(** [create_index] on a connected object whose existence check answers. *)
Lemma create_index_connected name settings mappings w c v c1 :
  es w = Some c ->
  perform B (ReqIndicesExists name) c = (Return v, c1) ->
  let create := ReqIndicesCreate name settings mappings in
  let w' := snd (create_index name settings mappings w) in
  if truthy v then
    create_index name settings mappings w
      = (Return false, record_call (ReqIndicesExists name) c1 w)
  else
    calls w' = calls w ++ [ReqIndicesExists name; create] /\
    es w' = Some (snd (perform B create c1)) /\
    fst (create_index name settings mappings w)
      = Return (match fst (perform B create c1) with
                | Return _ => true
                | Raise _ => false
                end).
Proof.
  intros Hc Hv create w'. subst create w'.
  unfold create_index, check_index. unfold_monad. unfold_steps.
  repeat (progress (rewrite ?Hc, ?Hv; cbn)).
  destruct (truthy v); cbn; [done|].
  destruct (perform B _ c1) as [[?|?] ?]; cbn; by rewrite <- ?app_assoc.
Qed.

(** [True] comes out of [create_index] on one path only. *)
Lemma create_index_true name settings mappings w :
  fst (create_index name settings mappings w) = Return true ->
  exists c v c1 x c2,
    es w = Some c /\
    perform B (ReqIndicesExists name) c = (Return v, c1) /\
    truthy v = false /\
    perform B (ReqIndicesCreate name settings mappings) c1 = (Return x, c2).
Proof.
  destruct (es w) as [c|] eqn:Hc.
  - destruct (perform B (ReqIndicesExists name) c) as [[v|e] c1] eqn:Hv.
    + pose proof (create_index_connected name settings mappings w c v c1 Hc Hv)
        as Hrun. cbv zeta in Hrun.
      destruct (truthy v) eqn:Ht.
      * rewrite Hrun. intros [=].
      * destruct Hrun as (_ & _ & ->).
        destruct (perform B (ReqIndicesCreate name settings mappings) c1)
          as [[x|e] c2] eqn:Hx; [|intros [=]].
        intros _. by exists c, v, c1, x, c2.
    + unfold create_index, check_index. unfold_monad. unfold_steps.
      repeat (progress (rewrite ?Hc, ?Hv; cbn)). intros [=].
  - unfold create_index, check_index. unfold_monad. unfold_steps.
    rewrite Hc. intros [=].
Qed.

Lemma delete_index_connected name w c v c1 :
  es w = Some c ->
  perform B (ReqIndicesExists name) c = (Return v, c1) ->
  let w' := snd (delete_index name w) in
  if truthy v then
    calls w' = calls w ++ [ReqIndicesExists name; ReqIndicesDelete name] /\
    es w' = Some (snd (perform B (ReqIndicesDelete name) c1)) /\
    fst (delete_index name w)
      = Return (match fst (perform B (ReqIndicesDelete name) c1) with
                | Return response => acknowledged_by response
                | Raise _ => false
                end)
  else
    delete_index name w
      = (Return false, record_call (ReqIndicesExists name) c1 w).
Proof.
  intros Hc Hv w'. subst w'.
  unfold delete_index, acknowledged_by. unfold_monad. unfold_steps.
  repeat (progress (rewrite ?Hc, ?Hv; cbn)).
  destruct (truthy v); cbn; [|done].
  destruct (perform B _ c1) as [[response|?] ?]; cbn.
  - destruct (subscript response "acknowledged") as [a|?]; cbn;
      [destruct (truthy a); cbn|]; by rewrite <- app_assoc.
  - by rewrite <- app_assoc.
Qed.

Lemma delete_index_true name w :
  fst (delete_index name w) = Return true ->
  exists c v c1 response c2 a,
    es w = Some c /\
    perform B (ReqIndicesExists name) c = (Return v, c1) /\
    truthy v = true /\
    perform B (ReqIndicesDelete name) c1 = (Return response, c2) /\
    subscript response "acknowledged" = Return a /\ truthy a = true.
Proof.
  destruct (es w) as [c|] eqn:Hc.
  - destruct (perform B (ReqIndicesExists name) c) as [[v|e] c1] eqn:Hv.
    + pose proof (delete_index_connected name w c v c1 Hc Hv) as Hrun.
      cbv zeta in Hrun. destruct (truthy v) eqn:Ht.
      * destruct Hrun as (_ & _ & ->).
        destruct (perform B (ReqIndicesDelete name) c1)
          as [[response|e] c2] eqn:Hx; [|intros [=]].
        cbn. unfold acknowledged_by.
        destruct (subscript response "acknowledged") as [a|e] eqn:Ha;
          [|intros [=]].
        intros [= Hta]. by exists c, v, c1, response, c2, a.
      * rewrite Hrun. intros [=].
    + unfold delete_index. unfold_monad. unfold_steps.
      repeat (progress (rewrite ?Hc, ?Hv; cbn)). intros [=].
  - unfold delete_index. unfold_monad. unfold_steps.
    rewrite Hc. intros [=].
Qed.

End IndexLifecycle.

(** C6, as stated, fails: "creation fails for any reason" takes in an
    endpoint that cannot be reached, and there [create_index] does not
    return [False]: its existence check runs before the [try] and the
    client's error reaches the caller. No creation was requested and
    nothing was logged. *)
Lemma create_index_reraises_check_error :
  let r := create_index "data" setup_settings setup_mappings offline in
  fst r = Raise (TransportError "Connection refused") /\
  calls (snd r) = [ReqIndicesExists "data"] /\
  logs (snd r) = [].
Proof. vm_compute. done. Qed.

(** C6, amended. Whenever its existence check answers, [create_index]
    returns [False] if the index exists, and then the only request made is
    that check: no creation is attempted. Otherwise it requests the
    creation, returns [False] if that request raises, for any reason, and
    [True] if it returns; and [True] is returned in no other case. *)
Theorem create_index_refuses_existing_and_reports_failure {B : backend}
    (name : string) (settings mappings : pyval) (w : world B) :
  (forall c v c1,
     es w = Some c ->
     perform B (ReqIndicesExists name) c = (Return v, c1) ->
     (truthy v = true ->
        fst (create_index name settings mappings w) = Return false /\
        calls (snd (create_index name settings mappings w))
          = calls w ++ [ReqIndicesExists name] /\
        es (snd (create_index name settings mappings w)) = Some c1) /\
     (truthy v = false ->
        calls (snd (create_index name settings mappings w))
          = calls w ++ [ReqIndicesExists name;
                        ReqIndicesCreate name settings mappings] /\
        (forall e c2,
           perform B (ReqIndicesCreate name settings mappings) c1 = (Raise e, c2) ->
           fst (create_index name settings mappings w) = Return false) /\
        (forall x c2,
           perform B (ReqIndicesCreate name settings mappings) c1 = (Return x, c2) ->
           fst (create_index name settings mappings w) = Return true))) /\
  (fst (create_index name settings mappings w) = Return true ->
   exists c v c1 x c2,
     es w = Some c /\
     perform B (ReqIndicesExists name) c = (Return v, c1) /\
     truthy v = false /\
     perform B (ReqIndicesCreate name settings mappings) c1 = (Return x, c2)).
Proof.
  split; [|apply create_index_true].
  intros c v c1 Hc Hv.
  pose proof (create_index_connected name settings mappings w c v c1 Hc Hv) as Hrun.
  cbv zeta in Hrun. split; intros Ht; rewrite Ht in Hrun.
  - by rewrite Hrun.
  - destruct Hrun as (Hcalls & _ & Hres). split; [done|].
    split; intros ? c2 Hx; rewrite Hres, Hx; done.
Qed.

(** Creating [data] twice on the in-memory engine, and creating it on an
    engine that refuses. *)
Lemma create_index_refuses_existing_and_reports_failure_witness :
  let w := connected {[ "data" := data_index ]} in
  (fst (create_index "data" setup_settings setup_mappings w) = Return false /\
   calls (snd (create_index "data" setup_settings setup_mappings w))
     = [ReqIndicesExists "data"] /\
   es (snd (create_index "data" setup_settings setup_mappings w)) = es w) /\
  fst (create_index "data" setup_settings setup_mappings (connected ∅))
    = Return true /\
  exists c v c1 x c2,
    es (connected ∅) = Some c /\
    perform memory (ReqIndicesExists "data") c = (Return v, c1) /\
    truthy v = false /\
    perform memory (ReqIndicesCreate "data" setup_settings setup_mappings) c1
      = (Return x, c2).
Proof.
  intros w.
  pose proof (create_index_refuses_existing_and_reports_failure
                "data" setup_settings setup_mappings w) as [Hw _].
  pose proof (create_index_refuses_existing_and_reports_failure
                "data" setup_settings setup_mappings (connected ∅)) as [He Htrue].
  assert (Hcreated :
            fst (create_index "data" setup_settings setup_mappings (connected ∅))
            = Return true).
  { destruct (He ∅ (PyBool false) ∅) as [_ Hnew];
      [reflexivity|vm_compute; reflexivity|].
    destruct (Hnew eq_refl) as (_ & _ & Hok).
    apply (Hok acknowledged {[ "data" := data_index ]}).
    vm_compute; reflexivity. }
  repeat apply conj.
  - destruct (Hw {[ "data" := data_index ]} (PyBool true) {[ "data" := data_index ]})
      as [Hold _]; [reflexivity|vm_compute; reflexivity|].
    by destruct (Hold eq_refl) as (? & _ & _).
  - destruct (Hw {[ "data" := data_index ]} (PyBool true) {[ "data" := data_index ]})
      as [Hold _]; [reflexivity|vm_compute; reflexivity|].
    by destruct (Hold eq_refl) as (_ & ? & _).
  - destruct (Hw {[ "data" := data_index ]} (PyBool true) {[ "data" := data_index ]})
      as [Hold _]; [reflexivity|vm_compute; reflexivity|].
    by destruct (Hold eq_refl) as (_ & _ & ?).
  - exact Hcreated.
  - exact (Htrue Hcreated).
Defined.

(** C7, as stated, fails: "if an error occurs" takes in an error of the
    existence check, which runs before the [try]. Against an endpoint that
    cannot be reached [delete_index] does not return [False], the client's
    error reaches the caller; no deletion was requested and nothing was
    logged. *)
Lemma delete_index_reraises_check_error :
  let r := delete_index "data" offline in
  fst r = Raise (TransportError "Connection refused") /\
  calls (snd r) = [ReqIndicesExists "data"] /\
  logs (snd r) = [].
Proof. vm_compute. done. Qed.

(** C7, amended. Whenever its existence check answers, [delete_index]
    returns [False] if the index does not exist, and then the only request
    made is that check: no deletion is issued. Otherwise it requests the
    deletion and returns [False] if that request raises or its answer is
    not acknowledged; [True] is returned only for an acknowledged
    deletion. *)
Theorem delete_index_requires_existence_and_acknowledgement {B : backend}
    (name : string) (w : world B) :
  (forall c v c1,
     es w = Some c ->
     perform B (ReqIndicesExists name) c = (Return v, c1) ->
     (truthy v = false ->
        fst (delete_index name w) = Return false /\
        calls (snd (delete_index name w)) = calls w ++ [ReqIndicesExists name] /\
        es (snd (delete_index name w)) = Some c1 /\
        logs (snd (delete_index name w)) = logs w) /\
     (truthy v = true ->
        calls (snd (delete_index name w))
          = calls w ++ [ReqIndicesExists name; ReqIndicesDelete name] /\
        (forall e c2,
           perform B (ReqIndicesDelete name) c1 = (Raise e, c2) ->
           fst (delete_index name w) = Return false) /\
        (forall response c2,
           perform B (ReqIndicesDelete name) c1 = (Return response, c2) ->
           fst (delete_index name w) = Return (acknowledged_by response)))) /\
  (fst (delete_index name w) = Return true ->
   exists c v c1 response c2 a,
     es w = Some c /\
     perform B (ReqIndicesExists name) c = (Return v, c1) /\
     truthy v = true /\
     perform B (ReqIndicesDelete name) c1 = (Return response, c2) /\
     subscript response "acknowledged" = Return a /\ truthy a = true).
Proof.
  split; [|apply delete_index_true].
  intros c v c1 Hc Hv.
  pose proof (delete_index_connected name w c v c1 Hc Hv) as Hrun.
  cbv zeta in Hrun. split; intros Ht; rewrite Ht in Hrun.
  - by rewrite Hrun.
  - destruct Hrun as (Hcalls & _ & Hres). split; [done|].
    split; intros ? c2 Hx; rewrite Hres, Hx; done.
Qed.

(** Deleting an index that is not there, one that is, and one whose
    deletion the engine does not acknowledge. *)
Lemma delete_index_requires_existence_and_acknowledgement_witness :
  (fst (delete_index "data" (connected ∅)) = Return false /\
   calls (snd (delete_index "data" (connected ∅))) = [ReqIndicesExists "data"] /\
   es (snd (delete_index "data" (connected ∅))) = es (connected ∅) /\
   logs (snd (delete_index "data" (connected ∅))) = []) /\
  fst (delete_index "data" (connected {[ "data" := data_index ]})) = Return true /\
  fst (delete_index "data" unacknowledged) = Return false /\
  exists c v c1 response c2 a,
    es (connected {[ "data" := data_index ]}) = Some c /\
    perform memory (ReqIndicesExists "data") c = (Return v, c1) /\
    truthy v = true /\
    perform memory (ReqIndicesDelete "data") c1 = (Return response, c2) /\
    subscript response "acknowledged" = Return a /\ truthy a = true.
Proof.
  pose proof (delete_index_requires_existence_and_acknowledgement
                "data" (connected ∅)) as [Hnone _].
  pose proof (delete_index_requires_existence_and_acknowledgement
                "data" (connected {[ "data" := data_index ]})) as [Hsome Htrue].
  pose proof (delete_index_requires_existence_and_acknowledgement
                "data" unacknowledged) as [Hrel _].
  assert (Hdeleted :
            fst (delete_index "data" (connected {[ "data" := data_index ]}))
            = Return true).
  { destruct (Hsome {[ "data" := data_index ]} (PyBool true)
                {[ "data" := data_index ]}) as [_ Hthere];
      [reflexivity|vm_compute; reflexivity|].
    destruct (Hthere eq_refl) as (_ & _ & Hok).
    apply (Hok acknowledged ∅). vm_compute; reflexivity. }
  repeat apply conj.
  - destruct (Hnone ∅ (PyBool false) ∅) as [Habsent _];
      [reflexivity|vm_compute; reflexivity|].
    by destruct (Habsent eq_refl) as (? & _).
  - destruct (Hnone ∅ (PyBool false) ∅) as [Habsent _];
      [reflexivity|vm_compute; reflexivity|].
    by destruct (Habsent eq_refl) as (_ & ? & _).
  - destruct (Hnone ∅ (PyBool false) ∅) as [Habsent _];
      [reflexivity|vm_compute; reflexivity|].
    by destruct (Habsent eq_refl) as (_ & _ & ? & _).
  - destruct (Hnone ∅ (PyBool false) ∅) as [Habsent _];
      [reflexivity|vm_compute; reflexivity|].
    by destruct (Habsent eq_refl) as (_ & _ & _ & ?).
  - exact Hdeleted.
  - destruct (Hrel () (PyBool true) ()) as [_ Hthere]; [reflexivity..|].
    destruct (Hthere eq_refl) as (_ & _ & Hok).
    rewrite (Hok (PyDict {[ "acknowledged" := PyBool false ]}) () eq_refl).
    vm_compute; reflexivity.
  - exact (Htrue Hdeleted).
Defined.

(** ** C8: [setup] *)

Section Setup.
Context {B : backend}.
Implicit Types (w : world B).

Lemma setup_existing w c v c1 :
  es w = Some c ->
  perform B (ReqIndicesExists "data") c = (Return v, c1) ->
  truthy v = true ->
  setup w = (Return true, record_call (ReqIndicesExists "data") c1 w).
Proof.
  intros Hc Hv Ht. unfold setup. unfold bind at 1.
  rewrite (check_index_connected "data" w c Hc), Hv. cbn. by rewrite Ht.
Qed.

Lemma setup_missing w c v c1 :
  es w = Some c ->
  perform B (ReqIndicesExists "data") c = (Return v, c1) ->
  truthy v = false ->
  setup w = create_index "data" setup_settings setup_mappings
              (record_call (ReqIndicesExists "data") c1 w).
Proof.
  intros Hc Hv Ht. unfold setup. unfold bind at 1.
  rewrite (check_index_connected "data" w c Hc), Hv. cbn. by rewrite Ht.
Qed.

(** After a [setup] that returned [True] the client is in a state where
    the index exists. *)
Lemma setup_true w :
  exists_is_read_only B "data" -> created_index_exists B "data" ->
  fst (setup w) = Return true ->
  exists c v,
    es (snd (setup w)) = Some c /\
    perform B (ReqIndicesExists "data") c = (Return v, c) /\
    truthy v = true.
Proof.
  intros Hro Hcr.
  assert (Hpair : forall c, perform B (ReqIndicesExists "data") c
                  = (fst (perform B (ReqIndicesExists "data") c), c)).
  { intros c. rewrite <- (Hro c) at 3. by destruct (perform B _ c). }
  destruct (es w) as [c|] eqn:Hc.
  - destruct (perform B (ReqIndicesExists "data") c) as [[v|e] c1] eqn:Hv.
    + assert (c1 = c) as -> by (rewrite <- (Hro c); by rewrite Hv).
      destruct (truthy v) eqn:Ht.
      * rewrite (setup_existing w c v c Hc Hv Ht). intros _. by exists c, v.
      * rewrite (setup_missing w c v c Hc Hv Ht). intros Htrue.
        destruct (create_index_true _ _ _ _ Htrue)
          as (c' & v' & c1' & x & c2 & Hc' & Hv' & Ht' & Hx).
        cbn in Hc'. injection Hc' as <-.
        pose proof (create_index_connected "data" setup_settings setup_mappings
                      (record_call (ReqIndicesExists "data") c w) c v' c1'
                      eq_refl Hv') as Hrun.
        cbv zeta in Hrun. rewrite Ht' in Hrun. destruct Hrun as (_ & -> & _).
        rewrite Hx. cbn.
        destruct (Hcr _ _ _ _ _ Hx) as (v2 & Hv2 & Ht2).
        exists c2, v2. split; [done|]. split; [|done].
        by rewrite (Hpair c2), Hv2.
    + unfold setup, check_index. unfold_monad. unfold_steps.
      repeat (progress (rewrite ?Hc, ?Hv; cbn)). intros [=].
  - unfold setup, check_index. unfold_monad. unfold_steps.
    rewrite Hc. intros [=].
Qed.

End Setup.

(** C8. [setup] works on the index [data] with two shards, two replicas
    and the two fields [id: long] and [timestamp: date], the date in the
    formats "yyyy-MM-dd HH:mm:ss", "yyyy-MM-dd" and [epoch_millis]. When
    the index exists it returns [True] after the existence check alone;
    when it does not, it requests the creation with exactly those settings
    and mappings. On an engine whose existence check is read-only and on
    which a created index exists, a [setup] that follows a successful one
    returns [True] and leaves client state, log and objects as they were. *)
Theorem setup_ensures_data_index_idempotently {B : backend} (w : world B) :
  (subscript setup_settings "number_of_shards" = Return (PyInt 2) /\
   subscript setup_settings "number_of_replicas" = Return (PyInt 2) /\
   (exists properties,
      subscript setup_mappings "properties" = Return (PyDict properties) /\
      dom properties = {[ "id"; "timestamp" ]}) /\
   field_property setup_mappings "id" "type" = Return (PyStr "long") /\
   field_property setup_mappings "timestamp" "type" = Return (PyStr "date") /\
   (exists format,
      field_property setup_mappings "timestamp" "format" = Return (PyStr format) /\
      split_formats format "" = ["yyyy-MM-dd HH:mm:ss"; "yyyy-MM-dd"; "epoch_millis"])) /\
  (forall c v c1,
     es w = Some c ->
     perform B (ReqIndicesExists "data") c = (Return v, c1) ->
     truthy v = true ->
     fst (setup w) = Return true /\
     calls (snd (setup w)) = calls w ++ [ReqIndicesExists "data"] /\
     es (snd (setup w)) = Some c1 /\
     logs (snd (setup w)) = logs w /\
     heap (snd (setup w)) = heap w) /\
  (forall c v c1 v2 c2,
     es w = Some c ->
     perform B (ReqIndicesExists "data") c = (Return v, c1) ->
     truthy v = false ->
     perform B (ReqIndicesExists "data") c1 = (Return v2, c2) ->
     truthy v2 = false ->
     calls (snd (setup w))
       = calls w ++ [ReqIndicesExists "data"; ReqIndicesExists "data";
                     ReqIndicesCreate "data" setup_settings setup_mappings] /\
     fst (setup w)
       = Return (match fst (perform B (ReqIndicesCreate "data" setup_settings
                                         setup_mappings) c2) with
                 | Return _ => true
                 | Raise _ => false
                 end)) /\
  (exists_is_read_only B "data" -> created_index_exists B "data" ->
   fst (setup w) = Return true ->
   fst (setup (snd (setup w))) = Return true /\
   es (snd (setup (snd (setup w)))) = es (snd (setup w)) /\
   logs (snd (setup (snd (setup w)))) = logs (snd (setup w)) /\
   heap (snd (setup (snd (setup w)))) = heap (snd (setup w))).
Proof.
  repeat apply conj.
  - vm_compute; reflexivity.
  - vm_compute; reflexivity.
  - eexists. split; [reflexivity|]. set_solver.
  - vm_compute; reflexivity.
  - vm_compute; reflexivity.
  - eexists. split; vm_compute; reflexivity.
  - intros c v c1 Hc Hv Ht. by rewrite (setup_existing w c v c1 Hc Hv Ht).
  - intros c v c1 v2 c2 Hc Hv Ht Hv2 Ht2.
    rewrite (setup_missing w c v c1 Hc Hv Ht).
    pose proof (create_index_connected "data" setup_settings setup_mappings
                  (record_call (ReqIndicesExists "data") c1 w) c1 v2 c2 eq_refl Hv2)
      as Hrun.
    cbv zeta in Hrun. rewrite Ht2 in Hrun. destruct Hrun as (-> & _ & ->).
    cbn. by rewrite <- app_assoc.
  - intros Hro Hcr Htrue.
    destruct (setup_true w Hro Hcr Htrue) as (c & v & Hc & Hv & Ht).
    by rewrite (setup_existing (snd (setup w)) c v c Hc Hv Ht).
Qed.

(** The in-memory engine meets both assumptions. *)
Lemma memory_exists_read_only name : exists_is_read_only memory name.
Proof. intros c. reflexivity. Qed.

Lemma memory_created_index_exists name : created_index_exists memory name.
Proof.
  intros settings mappings c x c' Hx.
  change (memory_perform (ReqIndicesCreate name settings mappings) c
          = (Return x, c')) in Hx.
  change (exists v, fst (memory_perform (ReqIndicesExists name) c') = Return v /\
                    truthy v = true).
  unfold memory_perform in *. cbn [fst]. revert Hx.
  match goal with
  | |- match ?l with _ => _ end = _ -> _ => destruct l eqn:Hl
  end; [discriminate|].
  intros Hx. injection Hx as <- <-.
  eexists. split; [reflexivity|]. cbn [truthy].
  apply bool_decide_eq_true. rewrite lookup_insert_eq. by eexists.
Qed.

(** [setup] on an engine that has the index, on an empty one, and once
    more after that. *)
Lemma setup_ensures_data_index_idempotently_witness :
  let had := connected {[ "data" := data_index ]} in
  let empty := connected ∅ in
  (fst (setup had) = Return true /\
   calls (snd (setup had)) = [ReqIndicesExists "data"] /\
   es (snd (setup had)) = es had) /\
  (calls (snd (setup empty))
     = [ReqIndicesExists "data"; ReqIndicesExists "data";
        ReqIndicesCreate "data" setup_settings setup_mappings] /\
   fst (setup empty) = Return true) /\
  (fst (setup (snd (setup empty))) = Return true /\
   es (snd (setup (snd (setup empty)))) = es (snd (setup empty)) /\
   logs (snd (setup (snd (setup empty)))) = logs (snd (setup empty)) /\
   heap (snd (setup (snd (setup empty)))) = heap (snd (setup empty))).
Proof.
  intros had empty.
  pose proof (setup_ensures_data_index_idempotently had) as (_ & Hhad & _).
  pose proof (setup_ensures_data_index_idempotently empty)
    as (_ & _ & Hempty & Hagain).
  assert (Hcreated : calls (snd (setup empty))
            = [ReqIndicesExists "data"; ReqIndicesExists "data";
               ReqIndicesCreate "data" setup_settings setup_mappings] /\
          fst (setup empty) = Return true).
  { assert (Habsent : perform memory (ReqIndicesExists "data") ∅
                      = (Return (PyBool false), ∅)) by (vm_compute; reflexivity).
    destruct (Hempty ∅ (PyBool false) ∅ (PyBool false) ∅
                eq_refl Habsent eq_refl Habsent eq_refl) as [Hcalls Hres].
    split; [exact Hcalls|]. rewrite Hres. vm_compute; reflexivity. }
  split; [|split; [exact Hcreated|]].
  - destruct (Hhad {[ "data" := data_index ]} (PyBool true)
                {[ "data" := data_index ]})
      as (Hres & Hcalls & Hes & _);
      [reflexivity|vm_compute; reflexivity|reflexivity|].
    repeat split; assumption.
  - apply Hagain.
    + apply memory_exists_read_only.
    + apply memory_created_index_exists.
    + apply Hcreated.
Defined.

(** ** C9: the timestamp helpers *)

(** C9. The claim is that [from_es_timestamp (to_es_timestamp d)] denotes
    the instant of [d] cut to whole milliseconds, so [d] itself when [d] is
    a whole number of milliseconds. The code misses it at
    1970-01-01 00:00:01.001 UTC: [timestamp()] is the binary64 nearest to
    1.001, which lies below 1.001, its product with 1000 rounds to
    1000.9999999999999, and [int] cuts that to 1000. The way back from 1000
    is exact, so the round trip lands one millisecond early. The naive
    value of the same instant goes the same way. *)
Theorem es_timestamp_round_trip_drops_a_millisecond :
  let d := {| dt_seconds := 1; dt_microsecond := 1000; dt_tzinfo := Some utc |} in
  let naive := {| dt_seconds := 1; dt_microsecond := 1000; dt_tzinfo := None |} in
  let back := {| dt_seconds := 1; dt_microsecond := 0; dt_tzinfo := Some utc |} in
  DateTime.truncate_ms d = d /\
  to_es_timestamp d = Return 1000 /\
  to_es_timestamp naive = Return 1000 /\
  from_es_timestamp 1000 utc = Return back /\
  ~ DateTime.same_instant back d.
Proof.
  repeat apply conj; try (vm_compute; reflexivity).
  unfold DateTime.same_instant. cbn. intros [_ [=]].
Qed.

(** Where the round trip does hold: the instant of the test clock. *)
Example es_timestamp_round_trip_at_test_clock :
  let d := {| dt_seconds := 1652400000; dt_microsecond := 250000;
              dt_tzinfo := Some utc |} in
  to_es_timestamp d = Return 1652400000250 /\
  from_es_timestamp 1652400000250 utc = Return d.
Proof. split; vm_compute; reflexivity. Qed.
(** * Further properties of the methods *)

(** ** Relations that every step of a method preserves *)

Section Preserved.
Context {B : backend} (R : relation (world B)) `{!PreOrder R}.

Lemma preserves_ret {A} (a : A) : preserves R (ret a).
Proof. intros w. reflexivity. Qed.

Lemma preserves_raise {A} e : preserves R (raise (A := A) e).
Proof. intros w. reflexivity. Qed.

Lemma preserves_lift {A} (r : result A) : preserves R (lift r).
Proof. intros w. reflexivity. Qed.

Lemma preserves_bind {A C} (m : M B A) (k : A -> M B C) :
  preserves R m -> (forall a, preserves R (k a)) -> preserves R (bind m k).
Proof.
  intros Hm Hk w. unfold bind. specialize (Hm w).
  destruct (m w) as [[a|e] w1]; [|done].
  etrans; [exact Hm|apply Hk].
Qed.

Lemma preserves_try_except {A} (m : M B A) (handler : exn -> M B A) :
  preserves R m -> (forall ex, preserves R (handler ex)) ->
  preserves R (try_except m handler).
Proof.
  intros Hm Hh w. unfold try_except. specialize (Hm w).
  destruct (m w) as [[a|e] w1]; [done|].
  etrans; [exact Hm|apply Hh].
Qed.

Lemma preserves_fall_through {A} (r : option A) (after : A) :
  preserves R (fall_through r after).
Proof. destruct r; apply preserves_ret. Qed.

Lemma preserves_client : preserves R client.
Proof. intros w. unfold client. by destruct (es w). Qed.

Lemma preserves_deref body : preserves R (deref body).
Proof. intros w. unfold deref. by destruct (heap w !! body). Qed.

End Preserved.

(** ** Footprints *)

#[export] Instance footprint_preorder {B : backend} (P : request -> Prop)
    (writes : bool) : PreOrder (footprint (B := B) P writes).
Proof.
  split.
  - intros w. repeat split; try done. exists []. by rewrite app_nil_r.
  - intros w1 w2 w3 ((n1 & Hc1 & Hp1) & Hl1 & Hk1 & Hf1)
      ((n2 & Hc2 & Hp2) & Hl2 & Hk2 & Hf2).
    split; [|split; [|split]].
    + exists (n1 ++ n2). rewrite Hc2, Hc1, app_assoc. split; [done|].
      by apply Forall_app.
    + by etrans.
    + by rewrite Hk2.
    + intros Hw. destruct (Hf1 Hw) as [Hh1 Ht1], (Hf2 Hw) as [Hh2 Ht2].
      by rewrite Hh2, Ht2.
Qed.

Section Footprint.
Context {B : backend}.
Variable P : request -> Prop.
Variable writes : bool.
Implicit Types (w : world B).

Lemma footprint_log (r : log_record) w : footprint P writes w (add_log r w).
Proof.
  repeat split; try done.
  - exists []. by rewrite app_nil_r.
  - by apply prefix_app_r.
Qed.

Lemma footprint_log_info msg : preserves (footprint P writes) (log_info (B := B) msg).
Proof. intros w. apply footprint_log. Qed.

Lemma footprint_log_error msg :
  preserves (footprint P writes) (log_error (B := B) msg).
Proof. intros w. apply footprint_log. Qed.

Lemma footprint_log_exception msg :
  preserves (footprint P writes) (log_exception (B := B) msg).
Proof. intros w. apply footprint_log. Qed.

Lemma footprint_call req : P req -> preserves (footprint P writes) (call (B := B) req).
Proof.
  intros Hreq w. unfold call. destruct (es w) as [c|]; [|reflexivity].
  destruct (perform B req c) as [r c']. cbn.
  repeat split; try done. exists [req]. split; [done|]. by apply Forall_singleton.
Qed.

Lemma footprint_Elasticsearch hosts auth context :
  preserves (footprint P writes) (Elasticsearch (B := B) hosts auth context).
Proof.
  intros w. unfold Elasticsearch. destruct (connect B hosts auth context); cbn.
  - repeat split; try done. exists []. by rewrite app_nil_r.
  - reflexivity.
Qed.

End Footprint.

(** A footprint can be widened. *)
Lemma keeps_weaken {B : backend} {A : Type} (P Q : request -> Prop)
    (writes : bool) (m : M B A) :
  (forall r, P r -> Q r) -> keeps P false m -> keeps Q writes m.
Proof.
  intros HPQ Hm w. destruct (Hm w) as ((new & Hc & Hp) & Hl & Hk & Hf).
  split; [|split; [|split]]; try done.
  - exists new. split; [done|]. eapply Forall_impl; eauto.
  - intros _. by apply Hf.
Qed.

(** What only a writing method does. *)
Lemma footprint_setitem {B : backend} P body key v :
  preserves (footprint P true) (setitem (B := B) body key v).
Proof.
  intros w. unfold setitem. destruct (heap w !! body); cbn.
  - repeat split; try done. exists []. by rewrite app_nil_r.
  - reflexivity.
Qed.

Lemma footprint_datetime_now {B : backend} P :
  preserves (footprint P true) (datetime_now (B := B)).
Proof.
  intros w. unfold datetime_now. cbn.
  repeat split; try done. exists []. by rewrite app_nil_r.
Qed.

(** ** Attachment of the client *)

#[export] Instance same_attachment_preorder {B : backend} :
  PreOrder (same_attachment (B := B)).
Proof.
  split.
  - intros w. done.
  - intros w1 w2 w3 H12 H23. unfold same_attachment in *. by rewrite H23.
Qed.

Section Attachment.
Context {B : backend}.
Implicit Types (w : world B).

Lemma attachment_log (r : log_record) w : same_attachment w (add_log r w).
Proof. done. Qed.

Lemma attachment_log_info msg : preserves same_attachment (log_info (B := B) msg).
Proof. intros w. apply attachment_log. Qed.

Lemma attachment_log_error msg : preserves same_attachment (log_error (B := B) msg).
Proof. intros w. apply attachment_log. Qed.

Lemma attachment_log_exception msg :
  preserves same_attachment (log_exception (B := B) msg).
Proof. intros w. apply attachment_log. Qed.

Lemma attachment_call req : preserves same_attachment (call (B := B) req).
Proof.
  intros w. unfold call, same_attachment. destruct (es w) as [c|] eqn:Hc; [|done].
  destruct (perform B req c) as [r c']. cbn. split; intros [=].
Qed.

Lemma attachment_setitem body key v :
  preserves same_attachment (setitem (B := B) body key v).
Proof. intros w. unfold setitem. by destruct (heap w !! body). Qed.

Lemma attachment_datetime_now : preserves same_attachment (datetime_now (B := B)).
Proof. intros w. done. Qed.

End Attachment.

Create HintDb preserved.
#[export] Hint Resolve preserves_ret preserves_raise preserves_lift
  preserves_fall_through preserves_client preserves_deref
  footprint_log_info footprint_log_error footprint_log_exception
  footprint_Elasticsearch footprint_setitem footprint_datetime_now
  attachment_log_info attachment_log_error attachment_log_exception
  attachment_call attachment_setitem attachment_datetime_now : preserved.

#[export] Hint Extern 1 (PreOrder _) => apply _ : preserved.

(** Walks through the body of a method. *)
Ltac preserves_step :=
  match goal with
  | |- preserves _ (bind _ _) => apply preserves_bind; [apply _| |intro]
  | |- preserves _ (try_except _ _) =>
      apply preserves_try_except; [apply _| |intro]
  | |- preserves (footprint _ _) (call _) => apply footprint_call; eauto 10
  | |- preserves _ (if ?b then _ else _) => destruct b
  | |- preserves _ (match ?x with _ => _ end) => destruct x
  | |- preserves _ _ => solve [auto with preserved]
  end.

Ltac preserves_method :=
  unfold keeps; cbv zeta; unfold indices; repeat preserves_step.

Section MethodFootprints.
Context {B : backend}.

Lemma ping_keeps : keeps (B := B) (fun r => r = ReqPing) false ping.
Proof. unfold ping. preserves_method. Qed.

Lemma check_index_keeps name :
  keeps (B := B) (fun r => r = ReqIndicesExists name) false (check_index name).
Proof. unfold check_index. preserves_method. Qed.

Lemma query_keeps index q raw size :
  keeps (B := B) (fun r => r = search_request index q size) false
    (query index q raw size).
Proof. unfold query, search_request. preserves_method. Qed.

Lemma get_keeps q :
  keeps (B := B)
    (fun r => r = search_request "data"
                    (match q with PyNone => PyDict ∅ | _ => q end) None)
    false (get q).
Proof. unfold get. apply query_keeps. Qed.

Lemma empty_index_keeps name :
  keeps (B := B) (fun r => r = ReqDeleteByQuery name match_all_query) false
    (empty_index name).
Proof. unfold empty_index. preserves_method. Qed.


Lemma create_index_keeps name settings mappings :
  keeps (B := B)
    (fun r => r = ReqIndicesExists name \/
              r = ReqIndicesCreate name settings mappings)
    false (create_index name settings mappings).
Proof. unfold create_index, check_index. preserves_method. Qed.

Lemma delete_index_keeps name :
  keeps (B := B)
    (fun r => r = ReqIndicesExists name \/ r = ReqIndicesDelete name)
    false (delete_index name).
Proof. unfold delete_index. preserves_method. Qed.

Lemma setup_keeps :
  keeps (B := B)
    (fun r => r = ReqIndicesExists "data" \/
              r = ReqIndicesCreate "data" setup_settings setup_mappings)
    false setup.
Proof. unfold setup, create_index, check_index. preserves_method. Qed.


Lemma init_keeps url user secret :
  keeps (B := B)
    (fun r => r = ReqInfo \/ r = ReqIndicesExists "data" \/
              r = ReqIndicesCreate "data" setup_settings setup_mappings)
    false (init url user secret).
Proof.
  unfold init, init_connect, context_load_verify_locations. preserves_method.
  eapply keeps_weaken; [|apply setup_keeps]. intros r [->| ->]; auto.
Qed.

End MethodFootprints.

(** X1. [ping], [check_index], [query] and [get] only ask: each adds to
    the trace nothing but its own request (the ping, the existence check of
    the name given, the one search), adds to the log at most, and leaves
    the dictionary objects and the clock as they are. *)
Theorem asking_methods_footprint {B : backend} :
  keeps (B := B) (fun r => r = ReqPing) false ping /\
  (forall name,
     keeps (B := B) (fun r => r = ReqIndicesExists name) false (check_index name)) /\
  (forall index q raw size,
     keeps (B := B) (fun r => r = search_request index q size) false
       (query index q raw size)) /\
  (forall q,
     keeps (B := B)
       (fun r => r = search_request "data"
                       (match q with PyNone => PyDict ∅ | _ => q end) None)
       false (get q)).
Proof.
  repeat apply conj.
  - apply ping_keeps.
  - intros name. apply check_index_keeps.
  - intros index q raw size. apply query_keeps.
  - intros q. apply get_keeps.
Qed.

(** X2. The index methods stay with the index they are given:
    [create_index] requests nothing but the existence check and the
    creation of that name with the settings and mappings passed,
    [delete_index] nothing but the check and the deletion of that name,
    [empty_index] nothing but a delete-by-query with [match_all] on it, and
    [setup] nothing but the check and the creation of [data] with the fixed
    schema. None touches the dictionary objects or the clock. *)
Theorem index_methods_footprint {B : backend} :
  (forall name settings mappings,
     keeps (B := B)
       (fun r => r = ReqIndicesExists name \/
                 r = ReqIndicesCreate name settings mappings)
       false (create_index name settings mappings)) /\
  (forall name,
     keeps (B := B)
       (fun r => r = ReqIndicesExists name \/ r = ReqIndicesDelete name)
       false (delete_index name)) /\
  (forall name,
     keeps (B := B) (fun r => r = ReqDeleteByQuery name match_all_query) false
       (empty_index name)) /\
  keeps (B := B)
    (fun r => r = ReqIndicesExists "data" \/
              r = ReqIndicesCreate "data" setup_settings setup_mappings)
    false setup.
Proof.
  repeat apply conj.
  - intros name settings mappings. apply create_index_keeps.
  - intros name. apply delete_index_keeps.
  - intros name. apply empty_index_keeps.
  - apply setup_keeps.
Qed.


(** X4. Whatever happens, the constructor requests nothing but the
    [info()] probe, the existence check of [data] and the creation of
    [data] with the fixed schema; it touches no dictionary object and does
    not read the clock. *)
Theorem init_footprint {B : backend} (url user secret : string) :
  keeps (B := B)
    (fun r => r = ReqInfo \/ r = ReqIndicesExists "data" \/
              r = ReqIndicesCreate "data" setup_settings setup_mappings)
    false (init url user secret).
Proof. apply init_keeps. Qed.

(** ** Outcomes and what gets logged *)

(** X5. On a connected object [empty_index] makes one request, the
    delete-by-query with [match_all] on the index named, and logs one
    record that names the index: at level info with result [True] when the
    request answers, an exception record carrying the error with result
    [False] when it raises. *)
Theorem empty_index_outcome {B : backend} (name : string) (w : world B)
    (c : cstate B) :
  es w = Some c ->
  let req := ReqDeleteByQuery name match_all_query in
  calls (snd (empty_index name w)) = calls w ++ [req] /\
  es (snd (empty_index name w)) = Some (snd (perform B req c)) /\
  exists r,
    logs (snd (empty_index name w)) = logs w ++ [r] /\
    Lit name ∈ lr_message r /\
    match fst (perform B req c) with
    | Return _ => fst (empty_index name w) = Return true /\ lr_level r = INFO
    | Raise e =>
        fst (empty_index name w) = Return false /\
        lr_level r = EXCEPTION /\ Exc e ∈ lr_message r
    end.
Proof.
  intros Hc req. subst req. unfold empty_index. unfold_monad. unfold_steps.
  repeat (progress (rewrite ?Hc; cbn)).
  destruct (perform B _ c) as [[?|?] ?]; cbn;
    (split; [done|]); (split; [done|]); eexists; (split; [done|]);
    (split; [set_solver|]); repeat split; set_solver.
Qed.

Lemma empty_index_outcome_witness :
  fst (empty_index "data" (connected one_document)) = Return true /\
  calls (snd (empty_index "data" (connected one_document)))
    = [ReqDeleteByQuery "data" match_all_query].
Proof.
  destruct (empty_index_outcome "data" (connected one_document) one_document eq_refl)
    as (Hcalls & _ & r & _ & _ & Hres).
  assert (Hp : fst (perform memory (ReqDeleteByQuery "data" match_all_query)
                      one_document)
               = Return (PyDict {[ "deleted" := PyInt 1 ]}))
    by (vm_compute; reflexivity).
  rewrite Hp in Hres. split; [apply Hres|exact Hcalls].
Defined.

(** X6. On a connected object [store] sends the dictionary as it stands
    at the call, in one index request, and never changes it. It returns
    [True] and logs nothing when the request answers; it returns [False]
    and logs the error when the request raises. *)
Theorem store_outcome {B : backend} (index : string) (body : ref) (d : pydict)
    (w : world B) (c : cstate B) :
  es w = Some c -> heap w !! body = Some d ->
  let req := ReqIndex index (PyDict d) in
  calls (snd (store index body w)) = calls w ++ [req] /\
  heap (snd (store index body w)) = heap w /\
  match fst (perform B req c) with
  | Return _ =>
      fst (store index body w) = Return true /\
      logs (snd (store index body w)) = logs w
  | Raise e =>
      fst (store index body w) = Return false /\
      logged e (logs w) (logs (snd (store index body w)))
  end.
Proof.
  intros Hc Hd req. subst req. split; [|split].
  - by destruct (store_connected index body d w c Hc Hd) as [-> _].
  - apply store_heap.
  - unfold store, logged. unfold_monad. unfold_steps.
    repeat (progress (rewrite ?Hc, ?Hd; cbn)).
    destruct (perform B _ c) as [[?|?] ?]; cbn; [done|].
    split; [done|]. eexists. split; [done|]. split; [done|]. set_solver.
Qed.

Lemma store_outcome_witness :
  fst (store "data" 7%nat holding) = Return true /\
  logs (snd (store "data" 7%nat holding)) = [] /\
  calls (snd (store "data" 7%nat holding))
    = [ReqIndex "data" (PyDict {[ "id" := PyInt 1000 ]})].
Proof.
  assert (Hd : heap holding !! 7%nat = Some ({[ "id" := PyInt 1000 ]} : pydict))
    by (vm_compute; reflexivity).
  destruct (store_outcome "data" 7%nat {[ "id" := PyInt 1000 ]} holding ∅
              eq_refl Hd) as (Hcalls & _ & Hres).
  assert (Hp : fst (perform memory (ReqIndex "data" (PyDict {[ "id" := PyInt 1000 ]}))
                      ∅)
               = Return (PyDict {[ "result" := PyStr "created" ]}))
    by (vm_compute; reflexivity).
  rewrite Hp in Hres. destruct Hres as [Hres Hlogs].
  split; [exact Hres|]. split; [exact Hlogs|exact Hcalls].
Defined.

(** X7. [delete_index] logs nothing when the index does not exist, and
    otherwise exactly one record, which names the index: at level info for
    an acknowledged deletion, at level error for one the engine does not
    acknowledge, an exception record when the request raises or its answer
    has no ['acknowledged']. *)
Theorem delete_index_logs {B : backend} (name : string) (w : world B)
    (c : cstate B) (v : pyval) (c1 : cstate B) :
  es w = Some c ->
  perform B (ReqIndicesExists name) c = (Return v, c1) ->
  if truthy v then
    exists r,
      logs (snd (delete_index name w)) = logs w ++ [r] /\
      lr_level r = deletion_level (fst (perform B (ReqIndicesDelete name) c1)) /\
      Lit name ∈ lr_message r
  else logs (snd (delete_index name w)) = logs w.
Proof.
  intros Hc Hv. unfold delete_index, deletion_level. unfold_monad. unfold_steps.
  repeat (progress (rewrite ?Hc, ?Hv; cbn)).
  destruct (truthy v); cbn; [|done].
  destruct (perform B _ c1) as [[response|?] ?]; cbn.
  - destruct (subscript response "acknowledged") as [a|?]; cbn;
      [destruct (truthy a); cbn|];
      eexists; (split; [done|]); (split; [done|]); set_solver.
  - eexists. split; [done|]. split; [done|]. set_solver.
Qed.

Lemma delete_index_logs_witness :
  (exists r, logs (snd (delete_index "data" unacknowledged)) = [r] /\
             lr_level r = ERROR) /\
  logs (snd (delete_index "data" (connected ∅))) = [].
Proof.
  split.
  - pose proof (delete_index_logs "data" unacknowledged () (PyBool true) ()
                  eq_refl eq_refl) as (r & Hlogs & Hlevel & _).
    exists r. split; [exact Hlogs|]. rewrite Hlevel. vm_compute; reflexivity.
  - assert (Hp : perform memory (ReqIndicesExists "data") ∅
                 = (Return (PyBool false), ∅)) by (vm_compute; reflexivity).
    exact (delete_index_logs "data" (connected ∅) ∅ (PyBool false) ∅ eq_refl Hp).
Defined.

(** X8. [create_index] logs nothing when it finds the index or creates
    it. When the creation raises it logs exactly two exception records, the
    first naming the index and the second carrying the error. *)
Theorem create_index_logs {B : backend} (name : string)
    (settings mappings : pyval) (w : world B) (c : cstate B) (v : pyval)
    (c1 : cstate B) :
  es w = Some c ->
  perform B (ReqIndicesExists name) c = (Return v, c1) ->
  let w' := snd (create_index name settings mappings w) in
  match fst (perform B (ReqIndicesCreate name settings mappings) c1) with
  | Raise e =>
      if truthy v then logs w' = logs w
      else exists r1 r2,
          logs w' = logs w ++ [r1; r2] /\
          lr_level r1 = EXCEPTION /\ Lit name ∈ lr_message r1 /\
          lr_level r2 = EXCEPTION /\ Exc e ∈ lr_message r2
  | Return _ => logs w' = logs w
  end.
Proof.
  intros Hc Hv w'. subst w'. unfold create_index, check_index.
  unfold_monad. unfold_steps.
  repeat (progress (rewrite ?Hc, ?Hv; cbn)).
  destruct (perform B (ReqIndicesCreate name settings mappings) c1)
    as [[?|e] ?] eqn:Hx; destruct (truthy v); cbn; try done;
    rewrite ?Hx; cbn; try done.
  do 2 eexists. rewrite <- app_assoc. split; [done|].
  repeat split; set_solver.
Qed.

Lemma create_index_logs_witness :
  exists r1 r2,
    logs (snd (create_index "data" setup_settings setup_mappings refused))
      = [r1; r2] /\
    lr_level r1 = EXCEPTION /\ Lit "data" ∈ lr_message r1 /\
    lr_level r2 = EXCEPTION /\
    Exc (ApiError 403 "security_exception") ∈ lr_message r2.
Proof.
  exact (create_index_logs "data" setup_settings setup_mappings refused ()
           (PyBool false) () eq_refl eq_refl).
Defined.

(** [put] on a connected object that is handed a dictionary. *)
Lemma put_connected {B : backend} (body : ref) (D : pydict) (ms : Z)
    (w : world B) (c : cstate B) :
  heap w !! body = Some D ->
  to_es_timestamp (now w) = Return ms ->
  es w = Some c ->
  let req := ReqIndex "data" (PyDict (<["timestamp" := PyInt ms]> D)) in
  let w' := snd (put body w) in
  calls w' = calls w ++ [req] /\
  es w' = Some (snd (perform B req c)) /\
  heap w' = <[body := <["timestamp" := PyInt ms]> D]> (heap w) /\
  ticks w' = S (ticks w) /\
  clock w' = clock w /\
  fst (put body w) = Return (match fst (perform B req c) with
                             | Return _ => true
                             | Raise _ => false
                             end).
Proof.
  intros Hd Hms Hc req w'. subst req w'.
  rewrite (put_unfold body D ms w Hd Hms).
  unfold store, stamped. unfold_monad. unfold_steps. cbn.
  repeat (progress (rewrite ?Hc, ?lookup_insert_eq; cbn)).
  by destruct (perform B _ c) as [[?|?] ?].
Qed.

(** X9. When the index [data] turns up between the existence check of
    [setup] and the one [create_index] makes itself, [setup] returns
    [False], although the index exists, and logs nothing; no creation is
    requested. *)
Theorem setup_false_when_index_appears {B : backend} (w : world B)
    (c : cstate B) (v : pyval) (c1 : cstate B) (v2 : pyval) (c2 : cstate B) :
  es w = Some c ->
  perform B (ReqIndicesExists "data") c = (Return v, c1) ->
  truthy v = false ->
  perform B (ReqIndicesExists "data") c1 = (Return v2, c2) ->
  truthy v2 = true ->
  fst (setup w) = Return false /\
  calls (snd (setup w))
    = calls w ++ [ReqIndicesExists "data"; ReqIndicesExists "data"] /\
  logs (snd (setup w)) = logs w.
Proof.
  intros Hc Hv Ht Hv2 Ht2. rewrite (setup_missing w c v c1 Hc Hv Ht).
  pose proof (create_index_connected "data" setup_settings setup_mappings
                (record_call (ReqIndicesExists "data") c1 w) c1 v2 c2 eq_refl Hv2)
    as Hrun.
  cbv zeta in Hrun. rewrite Ht2 in Hrun. rewrite Hrun. cbn.
  by rewrite <- app_assoc.
Qed.

Lemma setup_false_when_index_appears_witness :
  fst (setup raced) = Return false /\
  calls (snd (setup raced))
    = [ReqIndicesExists "data"; ReqIndicesExists "data"] /\
  logs (snd (setup raced)) = [].
Proof.
  exact (setup_false_when_index_appears raced false (PyBool false) true
           (PyBool true) true eq_refl eq_refl eq_refl eq_refl eq_refl).
Defined.

(** X10. Putting the same dictionary twice sends it twice, each time with
    the clock reading of that call; the caller's dictionary ends with the
    second reading and its other entries as they were. *)
Theorem put_twice_restamps {B : backend} (body : ref) (D : pydict)
    (t1 t2 : Z) (w : world B) (c : cstate B) :
  heap w !! body = Some D ->
  es w = Some c ->
  to_es_timestamp (clock w (ticks w)) = Return t1 ->
  to_es_timestamp (clock w (S (ticks w))) = Return t2 ->
  let w2 := snd (put body (snd (put body w))) in
  calls w2 = calls w ++ [ReqIndex "data" (PyDict (<["timestamp" := PyInt t1]> D));
                         ReqIndex "data" (PyDict (<["timestamp" := PyInt t2]> D))] /\
  heap w2 !! body = Some (<["timestamp" := PyInt t2]> D) /\
  ticks w2 = S (S (ticks w)).
Proof.
  intros Hd Hc Ht1 Ht2 w2. subst w2.
  destruct (put_connected body D t1 w c Hd Ht1 Hc)
    as (Hcalls1 & Hes1 & Hheap1 & Hticks1 & Hclock1 & _).
  set (w1 := snd (put body w)) in *.
  assert (Hd1 : heap w1 !! body = Some (<["timestamp" := PyInt t1]> D))
    by (rewrite Hheap1; apply lookup_insert_eq).
  assert (Hnow : to_es_timestamp (now w1) = Return t2)
    by (unfold now; by rewrite Hclock1, Hticks1).
  destruct (put_connected body _ t2 w1 _ Hd1 Hnow Hes1)
    as (Hcalls2 & _ & Hheap2 & Hticks2 & _).
  rewrite insert_insert_eq in Hcalls2, Hheap2.
  rewrite Hcalls2, Hcalls1, Hheap2, Hticks2, Hticks1, <- app_assoc.
  repeat split. apply lookup_insert_eq.
Qed.

Lemma put_twice_restamps_witness :
  let D : pydict := {[ "id" := PyInt 1000 ]} in
  let w2 := snd (put 7%nat (snd (put 7%nat holding))) in
  calls w2 = [ReqIndex "data" (PyDict (<["timestamp" := PyInt 1652400000250]> D));
              ReqIndex "data" (PyDict (<["timestamp" := PyInt 1652400000750]> D))] /\
  heap w2 !! 7%nat = Some (<["timestamp" := PyInt 1652400000750]> D) /\
  ticks w2 = 2%nat.
Proof.
  apply (put_twice_restamps 7%nat {[ "id" := PyInt 1000 ]}
           1652400000250 1652400000750 holding ∅);
    vm_compute; reflexivity.
Defined.



(** X12. On an object whose constructor could not build the client, the
    guarded methods answer [None] or [False] and log the missing
    attribute; the unguarded ones raise it. None of them reaches the
    client. *)
Theorem methods_without_client {B : backend} (w : world B) :
  es w = None ->
  (forall index q raw size,
     fst (query index q raw size w) = Return PyNone /\
     logged no_client (logs w) (logs (snd (query index q raw size w))) /\
     calls (snd (query index q raw size w)) = calls w) /\
  (forall index body,
     fst (store index body w) = Return false /\
     logged no_client (logs w) (logs (snd (store index body w))) /\
     calls (snd (store index body w)) = calls w) /\
  (forall name,
     fst (empty_index name w) = Return false /\
     logged no_client (logs w) (logs (snd (empty_index name w))) /\
     calls (snd (empty_index name w)) = calls w) /\
  ping w = (Raise no_client, w) /\
  (forall name, check_index name w = (Raise no_client, w)) /\
  (forall name settings mappings,
     create_index name settings mappings w = (Raise no_client, w)) /\
  (forall name, delete_index name w = (Raise no_client, w)) /\
  setup w = (Raise no_client, w).
Proof.
  intros Hc. unfold logged.
  repeat apply conj; intros;
    unfold query, store, empty_index, ping, setup, create_index, check_index,
      delete_index;
    unfold_monad; unfold_steps;
    try (destruct (default query_default_raw raw));
    rewrite ?Hc; cbn; try done;
    repeat split; try done;
    eexists; (split; [done|]); (split; [done|]); set_solver.
Qed.

Lemma methods_without_client_witness :
  fst (query "data" match_all_query None None (fresh unreachable)) = Return PyNone /\
  fst (store "data" 7%nat (fresh unreachable)) = Return false /\
  fst (empty_index "data" (fresh unreachable)) = Return false /\
  ping (fresh unreachable) = (Raise no_client, fresh unreachable) /\
  setup (fresh unreachable) = (Raise no_client, fresh unreachable).
Proof.
  pose proof (methods_without_client (fresh unreachable) eq_refl)
    as (Hquery & Hstore & Hempty & Hping & _ & _ & _ & Hsetup).
  repeat apply conj.
  - apply Hquery.
  - apply Hstore.
  - apply Hempty.
  - exact Hping.
  - exact Hsetup.
Defined.

(** X13. A search that succeeds is not logged. A non-raw search whose
    response has no [["hits"]["hits"]] logs the [KeyError] or [TypeError]
    of the subscript as one exception record. *)
Theorem query_logs_only_failures {B : backend} (index : string) (q : pyval)
    (size : option Z) (w : world B) (c : cstate B) (response : pyval)
    (c' : cstate B) :
  es w = Some c ->
  perform B (search_request index q size) c = (Return response, c') ->
  logs (snd (query index q (Some true) size w)) = logs w /\
  match hits_of response with
  | Return _ => logs (snd (query index q (Some false) size w)) = logs w
  | Raise e => logged e (logs w) (logs (snd (query index q (Some false) size w)))
  end.
Proof.
  intros Hc Hr. unfold search_request in Hr.
  unfold query, hits_of, logged. unfold_monad. unfold_steps. cbn.
  repeat (progress (rewrite ?Hc, ?Hr; cbn)). split; [done|].
  destruct (subscript response "hits") as [hits|e] eqn:Hh; cbn.
  - destruct (subscript hits "hits") as [hh|e]; cbn; [done|].
    eexists. split; [done|]. split; [done|]. set_solver.
  - eexists. split; [done|]. split; [done|]. set_solver.
Qed.

Lemma query_logs_only_failures_witness :
  logs (snd (query "data" match_all_query (Some true) None unacknowledged)) = [] /\
  logged (TypeError "object is not subscriptable") []
    (logs (snd (query "data" match_all_query (Some false) None unacknowledged))).
Proof.
  exact (query_logs_only_failures "data" match_all_query None unacknowledged ()
           PyNone () eq_refl eq_refl).
Defined.

(** ** The constructor and the destructor *)

(** X14. When the TLS context loads, the client is built and the [info()]
    probe answers with a version number, the constructor attaches the
    client, logs the version, and goes on to [setup]: the first two
    requests are the probe and the existence check of [data]. Whatever
    [setup] does or returns, the constructor returns normally. *)
Theorem init_connects_then_sets_up {B : backend} (url user secret : string)
    (w : world B) (c0 : cstate B) (info : pyval) (c1 : cstate B)
    (version number : pyval) :
  load_verify_locations B ROOT_CA = Return () ->
  connect B [url] (user, secret) init_context = Return c0 ->
  perform B ReqInfo c0 = (Return info, c1) ->
  subscript info "version" = Return version ->
  subscript version "number" = Return number ->
  let w' := snd (init url user secret w) in
  fst (init url user secret w) = Return () /\
  es w' <> None /\
  (exists more, calls w' = calls w ++ ReqInfo :: ReqIndicesExists "data" :: more) /\
  (exists more, logs w' = logs w ++ connected_record number :: more).
Proof.
  intros Hca Hconn Hinfo Hver Hnum w'. subst w'.
  unfold init, init_connect, context_load_verify_locations, Elasticsearch,
    setup, create_index, check_index.
  unfold_monad. unfold_steps. rewrite Hca. cbn.
  change (set_verify_mode _ CERT_REQUIRED) with init_context.
  rewrite Hconn. cbn. rewrite Hinfo. cbn. rewrite Hver. cbn. rewrite Hnum. cbn.
  repeat world_case; cbn; rewrite <- ?app_assoc; cbn;
    (split; [done|]); (split; [done|]); split; eexists; reflexivity.
Qed.

Lemma init_connects_then_sets_up_witness :
  let w' := snd (init "https://my.es.cluster:9200" "admin" "password"
                   (fresh memory)) in
  fst (init "https://my.es.cluster:9200" "admin" "password" (fresh memory))
    = Return () /\
  es w' <> None /\
  (exists more, calls w' = calls (fresh memory)
                           ++ ReqInfo :: ReqIndicesExists "data" :: more) /\
  (exists more, logs w' = logs (fresh memory)
                          ++ connected_record (PyStr "8.2.0") :: more).
Proof.
  apply (init_connects_then_sets_up "https://my.es.cluster:9200" "admin"
           "password" (fresh memory) ∅
           (PyDict {[ "version" := PyDict {[ "number" := PyStr "8.2.0" ]} ]}) ∅
           (PyDict {[ "number" := PyStr "8.2.0" ]}) (PyStr "8.2.0"));
    vm_compute; reflexivity.
Defined.

(** X15. What a failed construction leaves behind. If the client cannot
    be built, no client is attached and nothing is requested. If the probe
    raises, or answers without a version number, the client stays
    attached, the probe is the only request, and [setup] is not run. Each
    time the one record logged names the URL and the exception. *)
Theorem init_failure_modes {B : backend} (url user secret : string)
    (w : world B) :
  load_verify_locations B ROOT_CA = Return () ->
  (forall e,
     connect B [url] (user, secret) init_context = Raise e ->
     init url user secret w = (Return (), add_log (init_failed url e) w)) /\
  (forall c0 e c1,
     connect B [url] (user, secret) init_context = Return c0 ->
     perform B ReqInfo c0 = (Raise e, c1) ->
     init url user secret w
       = (Return (), add_log (init_failed url e)
                       (record_call ReqInfo c1 (set_es (Some c0) w)))) /\
  (forall c0 info c1 e,
     connect B [url] (user, secret) init_context = Return c0 ->
     perform B ReqInfo c0 = (Return info, c1) ->
     match subscript info "version" with
     | Return version => subscript version "number"
     | Raise e' => Raise e'
     end = Raise e ->
     init url user secret w
       = (Return (), add_log (init_failed url e)
                       (record_call ReqInfo c1 (set_es (Some c0) w)))).
Proof.
  intros Hca.
  assert (Hrun : init url user secret w
                 = try_except (init_connect url user secret init_context)
                     (fun ex => log_exception (lr_message (init_failed url ex))) w).
  { unfold init, context_load_verify_locations. unfold_monad. by rewrite Hca. }
  rewrite Hrun. unfold init_connect, Elasticsearch. unfold_monad. unfold_steps.
  repeat apply conj.
  - intros e Hconn. by rewrite Hconn.
  - intros c0 e c1 Hconn Hinfo. rewrite Hconn. cbn. by rewrite Hinfo.
  - intros c0 info c1 e Hconn Hinfo Hsub. rewrite Hconn. cbn. rewrite Hinfo. cbn.
    destruct (subscript info "version") as [version|e'] eqn:Hv; cbn.
    + by rewrite Hsub.
    + by injection Hsub as ->.
Qed.

Lemma init_failure_modes_witness :
  init "https://my.es.cluster:9200" "admin" "password" (fresh unreachable)
    = (Return (),
       add_log (init_failed "https://my.es.cluster:9200"
                  (TransportError "Connection refused"))
         (record_call (B := unreachable) ReqInfo ()
            (set_es (B := unreachable) (Some ()) (fresh unreachable)))).
Proof.
  destruct (init_failure_modes "https://my.es.cluster:9200" "admin" "password"
              (fresh unreachable) eq_refl) as (_ & Hprobe & _).
  apply (Hprobe () (TransportError "Connection refused") ()); reflexivity.
Defined.

(** X16. When the trust anchors cannot be loaded from [ROOT_CA], the
    constructor raises that error to the caller: nothing is logged, no
    client is attached and nothing is requested. *)
Theorem init_raises_tls_failure {B : backend} (url user secret : string)
    (w : world B) (e : exn) :
  load_verify_locations B ROOT_CA = Raise e ->
  init url user secret w = (Raise e, w).
Proof.
  intros Hca. unfold init, context_load_verify_locations. unfold_monad.
  by rewrite Hca.
Qed.

Lemma init_raises_tls_failure_witness :
  init "https://my.es.cluster:9200" "admin" "password" (fresh missing_ca)
    = (Raise (OSError ("No such file or directory: " +:+ ROOT_CA)),
       fresh missing_ca).
Proof.
  apply (init_raises_tls_failure (B := missing_ca)). reflexivity.
Defined.

(** X17. The destructor never returns normally. When [ping] answers it
    closes the client only for a truthy answer, deletes [__es], and then
    fails on [del self.__logger], the logger being an attribute of the
    class; when [ping] or [close] raises, that error comes out and the
    client stays attached. *)
Theorem destructor_outcome {B : backend}
    (close : cstate B -> result pyval * cstate B) (w : world B) :
  (exists e, fst (__del__ close w) = Raise e) /\
  (forall c v c1,
     es w = Some c -> perform B ReqPing c = (Return v, c1) ->
     truthy v = false ->
     __del__ close w
       = (Raise no_logger, set_es None (record_call ReqPing c1 w))) /\
  (forall c v c1 x c2,
     es w = Some c -> perform B ReqPing c = (Return v, c1) ->
     truthy v = true -> close c1 = (Return x, c2) ->
     fst (__del__ close w) = Raise no_logger /\
     es (snd (__del__ close w)) = None) /\
  (forall c v c1 e c2,
     es w = Some c -> perform B ReqPing c = (Return v, c1) ->
     truthy v = true -> close c1 = (Raise e, c2) ->
     fst (__del__ close w) = Raise e /\
     es (snd (__del__ close w)) = Some c2) /\
  (forall c e c1,
     es w = Some c -> perform B ReqPing c = (Raise e, c1) ->
     fst (__del__ close w) = Raise e /\
     es (snd (__del__ close w)) = Some c1).
Proof.
  repeat apply conj.
  - unfold __del__, ping, client_close, del_es, del_logger.
    unfold_monad. unfold_steps.
    repeat (match goal with
            | |- context [match es ?w with _ => _ end] => destruct (es w) eqn:?
            | |- context [perform ?B ?r ?c] =>
                destruct (perform B r c) as [[?|?] ?] eqn:?
            | |- context [if truthy ?v then _ else _] => destruct (truthy v) eqn:?
            | |- context [close ?c] => destruct (close c) as [[?|?] ?] eqn:?
            end; cbn in *); eauto.
  - intros c v c1 Hc Hv Ht.
    unfold __del__, ping, client_close, del_es, del_logger.
    unfold_monad. unfold_steps.
    repeat (progress (rewrite ?Hc, ?Hv, ?Ht; cbn)). done.
  - intros c v c1 x c2 Hc Hv Ht Hx.
    unfold __del__, ping, client_close, del_es, del_logger.
    unfold_monad. unfold_steps.
    repeat (progress (rewrite ?Hc, ?Hv, ?Ht, ?Hx; cbn)). done.
  - intros c v c1 e c2 Hc Hv Ht Hx.
    unfold __del__, ping, client_close, del_es, del_logger.
    unfold_monad. unfold_steps.
    repeat (progress (rewrite ?Hc, ?Hv, ?Ht, ?Hx; cbn)). done.
  - intros c e c1 Hc Hv.
    unfold __del__, ping, client_close, del_es, del_logger.
    unfold_monad. unfold_steps.
    repeat (progress (rewrite ?Hc, ?Hv; cbn)). done.
Qed.

Lemma destructor_outcome_witness :
  (fst (__del__ (close_quietly (B := memory)) (connected ∅)) = Raise no_logger /\
   es (snd (__del__ (close_quietly (B := memory)) (connected ∅))) = None) /\
  (fst (__del__ (close_quietly (B := unreachable)) offline)
     = Raise (TransportError "Connection refused") /\
   es (snd (__del__ (close_quietly (B := unreachable)) offline)) = Some ()).
Proof.
  split.
  - destruct (destructor_outcome (close_quietly (B := memory)) (connected ∅))
      as (_ & _ & Hclosed & _).
    apply (Hclosed ∅ (PyBool true) ∅ PyNone ∅); reflexivity.
  - destruct (destructor_outcome (close_quietly (B := unreachable)) offline)
      as (_ & _ & _ & _ & Hping).
    apply (Hping () (TransportError "Connection refused") ()); reflexivity.
Defined.

(** ** The timestamp helpers on the first two seconds *)

Lemma first_two_seconds_checked :
  forallb within_one_ms ((fun i => Z.of_nat i) <$> seq 0 2000) = true.
Proof. vm_compute. reflexivity. Qed.

(** X18. For every millisecond count of the first two seconds after the
    epoch, [from_es_timestamp] gives exactly that instant, and
    [to_es_timestamp] takes it back to the same count or to the one
    before: never later, never more than one millisecond early. *)
Theorem es_timestamps_within_one_millisecond (ms : Z) :
  0 <= ms < 2000 ->
  from_es_timestamp ms utc = Return (datetime_of_ms ms utc) /\
  exists ms',
    to_es_timestamp (datetime_of_ms ms utc) = Return ms' /\
    (ms' = ms \/ ms' = ms - 1).
Proof.
  intros Hms.
  pose proof first_two_seconds_checked as Hall.
  rewrite forallb_forall in Hall.
  assert (Hin : In ms ((fun i => Z.of_nat i) <$> seq 0 2000)).
  { apply in_map_iff. exists (Z.to_nat ms). split; [lia|].
    apply in_seq. lia. }
  specialize (Hall ms Hin). unfold within_one_ms in Hall.
  destruct (from_es_timestamp ms utc) as [d|e]; [|done].
  apply andb_prop in Hall as [Heq Hback].
  assert (d = datetime_of_ms ms utc) as ->.
  { unfold datetime_eqb in Heq.
    apply andb_prop in Heq as [Heq Htz]. apply andb_prop in Heq as [Hs Hus].
    apply Z.eqb_eq in Hs, Hus. apply bool_decide_eq_true in Htz.
    destruct d as [s us tz]. cbn in *. by subst. }
  split; [done|].
  destruct (to_es_timestamp (datetime_of_ms ms utc)) as [ms'|e]; [|done].
  exists ms'. split; [done|].
  apply orb_prop in Hback as [H|H]; apply Z.eqb_eq in H; auto.
Qed.

(** The instant at which the round trip is one millisecond early. *)
Lemma es_timestamps_within_one_millisecond_witness :
  from_es_timestamp 1001 utc = Return (datetime_of_ms 1001 utc) /\
  exists ms',
    to_es_timestamp (datetime_of_ms 1001 utc) = Return ms' /\
    (ms' = 1001 \/ ms' = 1001 - 1).
Proof. apply (es_timestamps_within_one_millisecond 1001). lia. Defined.

(** ** The client stays attached, or missing *)

(** X19. No method attaches or detaches the client: after [ping],
    [check_index], [create_index], [empty_index], [delete_index], [query],
    [store], [setup], [get] or [put], whether it returned or raised, the
    object has a client exactly if it had one before. *)
Theorem methods_keep_attachment {B : backend} :
  preserves (B := B) same_attachment ping /\
  (forall name, preserves (B := B) same_attachment (check_index name)) /\
  (forall name settings mappings,
     preserves (B := B) same_attachment (create_index name settings mappings)) /\
  (forall name, preserves (B := B) same_attachment (empty_index name)) /\
  (forall name, preserves (B := B) same_attachment (delete_index name)) /\
  (forall index q raw size,
     preserves (B := B) same_attachment (query index q raw size)) /\
  (forall index body, preserves (B := B) same_attachment (store index body)) /\
  preserves (B := B) same_attachment setup /\
  (forall q, preserves (B := B) same_attachment (get q)) /\
  (forall body, preserves (B := B) same_attachment (put body)).
Proof.
  repeat apply conj; intros;
    unfold ping, check_index, empty_index, delete_index, get, query, put, store,
      setup, create_index, check_index;
    preserves_method.
Qed.
